(** * compress_jpegs.py: the per-file recompression pipeline

    A shallow embedding of [src/compress_jpegs.py].  The file system, the
    progress callback, the message boxes and the calls made to Pillow are
    threaded through an explicit [World]; an exception is an explicit
    outcome [Raised].  Pillow's codecs and Python's [int] are not code of the
    repository: they are the fields of the record [Lib]; what [os.listdir]
    and [os.path.isdir] answer and where [os.remove] is refused are fields
    of the [World].  The general theorems hold for each choice of them.

    Paths follow [posixpath]; a path is the string the program computes, and
    two files are the same file exactly when their path strings are equal. *)

From stdpp Require Import gmap strings list fin_maps.
From Stdlib Require Import ZArith Lia Ascii String.

Open Scope string_scope.
Open Scope Z_scope.

(** ** Strings and [os.path] *)

Module Path.

(** [s[n:]] and [s[:n]] for [0 <= n]. *)
Fixpoint drop_str (n : nat) (s : string) : string :=
  match n, s with
  | O, _ => s
  | S _, EmptyString => EmptyString
  | S n', String _ s' => drop_str n' s'
  end.

Fixpoint take_str (n : nat) (s : string) : string :=
  match n, s with
  | O, _ => EmptyString
  | S _, EmptyString => EmptyString
  | S n', String a s' => String a (take_str n' s')
  end.

(** [s.rfind(c)] for a one-character [c]: the index of its last occurrence,
    [-1] when there is none.  [i] is the index of the head of [s]. *)
Fixpoint rfind_from (c : ascii) (s : string) (i : Z) : Z :=
  match s with
  | EmptyString => -1
  | String a s' =>
      let r := rfind_from c s' (i + 1) in
      if 0 <=? r then r else if Ascii.eqb a c then i else -1
  end.

Definition rfind (c : ascii) (s : string) : Z := rfind_from c s 0.

Definition lower_ascii (a : ascii) : ascii :=
  let n := nat_of_ascii a in
  if ((65 <=? n) && (n <=? 90))%nat then ascii_of_nat (n + 32) else a.

(** [str.lower()] on the ASCII letters. *)
Fixpoint lower (s : string) : string :=
  match s with
  | EmptyString => EmptyString
  | String a s' => String (lower_ascii a) (lower s')
  end.

Fixpoint all_dots (s : string) : bool :=
  match s with
  | EmptyString => true
  | String a s' => Ascii.eqb a "." && all_dots s'
  end.

Fixpoint ends_with_sep (s : string) : bool :=
  match s with
  | EmptyString => false
  | String a EmptyString => Ascii.eqb a "/"
  | String _ s' => ends_with_sep s'
  end.

(** [posixpath.join(a, b)]. *)
Definition join (a b : string) : string :=
  if String.prefix "/" b then b
  else if String.eqb a EmptyString || ends_with_sep a then a +:+ b
  else a +:+ "/" +:+ b.

(** [posixpath.basename(p)]: [p[p.rfind("/") + 1:]]. *)
Definition basename (p : string) : string :=
  drop_str (Z.to_nat (rfind "/" p + 1)) p.

(** [posixpath.splitext(p)] ([genericpath._splitext]): the extension starts
    at the last dot of the last component, unless only dots precede it. *)
Definition splitext (p : string) : string * string :=
  let sepIndex := rfind "/" p in
  let dotIndex := rfind "." p in
  if (sepIndex <? dotIndex)
     && negb (all_dots (take_str (Z.to_nat (dotIndex - (sepIndex + 1)))
                                 (drop_str (Z.to_nat (sepIndex + 1)) p)))
  then (take_str (Z.to_nat dotIndex) p, drop_str (Z.to_nat dotIndex) p)
  else (p, EmptyString).

(** [x in (...)] on strings. *)
Definition str_in (x : string) (l : list string) : bool :=
  existsb (String.eqb x) l.

(** White space as [str.isspace] has it.  A [str] is held as its UTF-8
    encoding, so that a white-space character is one, two or three bytes:
    U+0009..U+000D, U+001C..U+001F and U+0020 are one byte each; *)
Definition is_space (a : ascii) : bool :=
  let n := nat_of_ascii a in
  (((9 <=? n) && (n <=? 13)) || ((28 <=? n) && (n <=? 32)))%nat.

(** U+0085 and U+00A0 are [C2 85] and [C2 A0]; *)
Definition is_space2 (a b : ascii) : bool :=
  let n := nat_of_ascii a in
  let m := nat_of_ascii b in
  ((n =? 194) && ((m =? 133) || (m =? 160)))%nat.

(** U+1680 is [E1 9A 80], U+2000..U+200A, U+2028, U+2029 and U+202F are
    [E2 80 80]..[E2 80 8A], [E2 80 A8], [E2 80 A9] and [E2 80 AF], U+205F is
    [E2 81 9F] and U+3000 is [E3 80 80]. *)
Definition is_space3 (a b c : ascii) : bool :=
  let n := nat_of_ascii a in
  let m := nat_of_ascii b in
  let k := nat_of_ascii c in
  (((n =? 225) && (m =? 154) && (k =? 128))
   || ((n =? 226) && (m =? 128)
       && (((128 <=? k) && (k <=? 138)) || (k =? 168) || (k =? 169)
           || (k =? 175)))
   || ((n =? 226) && (m =? 129) && (k =? 159))
   || ((n =? 227) && (m =? 128) && (k =? 128)))%nat.

(** [s.lstrip()]: the white-space characters at the head are dropped. *)
Fixpoint lstrip (s : string) : string :=
  match s with
  | EmptyString => EmptyString
  | String a s1 =>
      if is_space a then lstrip s1
      else
        match s1 with
        | EmptyString => s
        | String b s2 =>
            if is_space2 a b then lstrip s2
            else
              match s2 with
              | EmptyString => s
              | String c s3 => if is_space3 a b c then lstrip s3 else s
              end
        end
  end.

Fixpoint rev_onto (s acc : string) : string :=
  match s with
  | EmptyString => acc
  | String a s' => rev_onto s' (String a acc)
  end.

(** [s[::-1]], byte by byte. *)
Definition rev (s : string) : string := rev_onto s EmptyString.

(** [lstrip] on a reversed string: the bytes of a character come last
    byte first. *)
Fixpoint lstrip_rev (s : string) : string :=
  match s with
  | EmptyString => EmptyString
  | String a s1 =>
      if is_space a then lstrip_rev s1
      else
        match s1 with
        | EmptyString => s
        | String b s2 =>
            if is_space2 b a then lstrip_rev s2
            else
              match s2 with
              | EmptyString => s
              | String c s3 => if is_space3 c b a then lstrip_rev s3 else s
              end
        end
  end.

(** [s.rstrip()]: the white-space characters at the end are dropped. *)
Definition rstrip (s : string) : string := rev (lstrip_rev (rev s)).

(** [str.strip()]. *)
Definition strip (s : string) : string := rstrip (lstrip s).

End Path.

(** ** Images, as the program sees them through Pillow *)

Definition bytes := list Byte.byte.

(** One band of a raster: the values of its pixels, at least one. *)
Definition Band : Type := Z * list Z.

(** [band.getextrema()]: the least and the greatest value. *)
Definition getextrema (b : Band) : Z * Z :=
  (fold_left Z.min (snd b) (fst b), fold_left Z.max (snd b) (fst b)).

Record Image := {
  mode : string;                      (* img.mode *)
  bands : list (string * Band);       (* the raster, band by band *)
  info : list (string * bytes)        (* img.info *)
}.

(** [d.get(key)] and [key in d] on [img.info]. *)
Fixpoint dict_get {V} (key : string) (d : list (string * V)) : option V :=
  match d with
  | [] => None
  | (k, v) :: d' => if String.eqb k key then Some v else dict_get key d'
  end.

Definition dict_in {V} (key : string) (d : list (string * V)) : bool :=
  match dict_get key d with Some _ => true | None => false end.

(** The keyword arguments of the two [img.save] calls. *)
Inductive SaveFormat :=
| PNG (optimize : bool) (compress_level : Z)
| JPEG (quality : Z) (optimize progressive : bool) (exif icc_profile : option bytes).

(** What the program takes from outside the repository.
    [decode]: [Image.open] followed by the load of the raster, [None] when
    Pillow cannot read the bytes; the [info] of the image is the dictionary
    as the program finds it when it reads it.
    [convert_bands m m']: the raster of [img.convert(m')] for an image of
    mode [m].
    [encode]: the bytes [img.save] writes, [None] when the encoder refuses
    the call.
    [py_int]: Python's [int] on a string, [None] for [ValueError]. *)
Record Lib := {
  decode : bytes -> option Image;
  convert_bands : string -> string -> list (string * Band) -> list (string * Band);
  encode : Image -> SaveFormat -> option bytes;
  py_int : string -> option Z
}.

(** ** The world: files, and the trace of what the program did *)

Record File := { content : bytes; mtime : Z }.

Inductive exn :=
| UnidentifiedImageError
| EncoderError
| ValueError
| FileNotFoundError
| FileExistsError
| SameFileError
| PermissionError.

(** [except OSError] catches these. *)
Definition is_OSError (e : exn) : bool :=
  match e with
  | EncoderError | ValueError => false
  | _ => true
  end.

Inductive Dialog :=
| ErrorBadSource            (* showerror: the source folder is not a folder *)
| ErrorNoDestination        (* showerror: no destination folder *)
| ErrorQualityNotNumber     (* showerror: the quality is not a number *)
| ErrorQualityRange         (* showerror: the quality is not within 1..95 *)
| ErrorFailed (e : exn)     (* showerror: the batch raised [e] *)
| InfoDone (count src_bytes dst_bytes : Z)   (* showinfo *)
| Printed (count src_bytes dst_bytes : Z).   (* the three lines of run_cli *)

Record World := {
  fs : gmap string File;                       (* regular files, by path *)
  listdir : string -> option (list string);    (* os.listdir *)
  isdir : string -> bool;                      (* os.path.isdir *)
  denied : string -> bool;                     (* os.remove raises here *)
  clock : Z;                                   (* stamps the files written *)
  saves : list (string * Image * SaveFormat);  (* img.save calls, in order *)
  calls : list (Z * Z * option bool);          (* progress_cb calls, in order *)
  progress_var : Z;                            (* the GUI's progress value *)
  ui_enabled : bool;                           (* set_ui_state *)
  dialogs : list Dialog                        (* message boxes and prints *)
}.

Definition set_fs (f : gmap string File -> gmap string File) (w : World) : World :=
  {| fs := f (fs w); listdir := listdir w; isdir := isdir w; denied := denied w;
     clock := clock w; saves := saves w; calls := calls w;
     progress_var := progress_var w; ui_enabled := ui_enabled w;
     dialogs := dialogs w |}.

Definition log_save (out_path : string) (img : Image) (fmt : SaveFormat)
    (w : World) : World :=
  {| fs := fs w; listdir := listdir w; isdir := isdir w; denied := denied w;
     clock := clock w + 1; saves := saves w ++ [(out_path, img, fmt)];
     calls := calls w; progress_var := progress_var w;
     ui_enabled := ui_enabled w; dialogs := dialogs w |}.

Definition log_call (c : Z * Z * option bool) (w : World) : World :=
  {| fs := fs w; listdir := listdir w; isdir := isdir w; denied := denied w;
     clock := clock w; saves := saves w; calls := calls w ++ [c];
     progress_var := progress_var w; ui_enabled := ui_enabled w;
     dialogs := dialogs w |}.

Definition set_progress_var (v : Z) (w : World) : World :=
  {| fs := fs w; listdir := listdir w; isdir := isdir w; denied := denied w;
     clock := clock w; saves := saves w; calls := calls w;
     progress_var := v; ui_enabled := ui_enabled w; dialogs := dialogs w |}.

Definition set_ui_enabled (b : bool) (w : World) : World :=
  {| fs := fs w; listdir := listdir w; isdir := isdir w; denied := denied w;
     clock := clock w; saves := saves w; calls := calls w;
     progress_var := progress_var w; ui_enabled := b; dialogs := dialogs w |}.

Definition log_dialog (d : Dialog) (w : World) : World :=
  {| fs := fs w; listdir := listdir w; isdir := isdir w; denied := denied w;
     clock := clock w; saves := saves w; calls := calls w;
     progress_var := progress_var w; ui_enabled := ui_enabled w;
     dialogs := dialogs w ++ [d] |}.

(** ** Computations: a state and exception monad over the world *)

Inductive Res (A : Type) :=
| Returned (a : A)
| Raised (e : exn).
Arguments Returned {A} a.
Arguments Raised {A} e.

Definition M (A : Type) : Type := World -> World * Res A.

Definition ret {A} (a : A) : M A := fun w => (w, Returned a).

Definition raise {A} (e : exn) : M A := fun w => (w, Raised e).

Definition bind {A B} (m : M A) (k : A -> M B) : M B :=
  fun w =>
    match m w with
    | (w', Returned a) => k a w'
    | (w', Raised e) => (w', Raised e)
    end.

Definition lift {A} (r : Res A) : M A := fun w => (w, r).

Definition modify (f : World -> World) : M unit := fun w => (f w, Returned tt).

(** [try: m  except OSError: pass]. *)
Definition try_except_OSError (m : M unit) : M unit :=
  fun w =>
    match m w with
    | (w', Raised e) => if is_OSError e then (w', Returned tt) else (w', Raised e)
    | r => r
    end.

Declare Scope py_scope.
Delimit Scope py_scope with py.
Notation "x <- m ;; k" := (bind m (fun x => k))
  (at level 100, m at next level, right associativity) : py_scope.
Notation "m ;; k" := (bind m (fun _ => k))
  (at level 100, right associativity) : py_scope.
Open Scope py_scope.

(** [m], with its exception, if any, handed back as a value. *)
Definition attempt {A} (m : M A) : M (Res A) :=
  fun w => let (w', r) := m w in (w', Returned r).

(** ** The operating system and Pillow, as the program calls them *)

Section Program.

Context (lib : Lib).

(** [os.path.isfile(path)] *)
Definition isfile (w : World) (path : string) : bool :=
  match fs w !! path with Some _ => true | None => false end.

(** [os.path.getsize(path)] *)
Definition getsize (path : string) : M Z :=
  fun w =>
    match fs w !! path with
    | Some f => (w, Returned (Z.of_nat (List.length (content f))))
    | None => (w, Raised FileNotFoundError)
    end.

(** [os.remove(path)] *)
Definition os_remove (path : string) : M unit :=
  fun w =>
    if denied w path then (w, Raised PermissionError)
    else match fs w !! path with
         | Some _ => (set_fs (delete path) w, Returned tt)
         | None => (w, Raised FileNotFoundError)
         end.

(** [shutil.copy2(src, dst)]: the bytes and the metadata of [src]. *)
Definition shutil_copy2 (src dst : string) : M unit :=
  fun w =>
    match fs w !! src with
    | None => (w, Raised FileNotFoundError)
    | Some f =>
        if String.eqb src dst then (w, Raised SameFileError)
        else (set_fs (insert dst f) w, Returned tt)
    end.

(** [os.makedirs(dst_dir, exist_ok=True)].  The [World] holds the regular
    files, not the tree of folders: the folder that line 37 creates is not
    recorded in it.  [listdir] is what [os.listdir] answers the batch at
    line 38, after this call, and [isdir] what [os.path.isdir] answers the
    handler at line 166, before the batch; nothing else of the program reads
    a folder.  What is seen here is a regular file in the way. *)
Definition os_makedirs (dst_dir : string) : M unit :=
  fun w => if isfile w dst_dir then (w, Raised FileExistsError) else (w, Returned tt).

(** [Image.open(path)], with the load of the raster that the first use of
    the image triggers. *)
Definition image_open (path : string) : M Image :=
  fun w =>
    match fs w !! path with
    | None => (w, Raised FileNotFoundError)
    | Some f =>
        match decode lib (content f) with
        | Some img => (w, Returned img)
        | None => (w, Raised UnidentifiedImageError)
        end
    end.

(** [img.save(out_path, ...)]: the raster is in memory by now, so the file
    at [out_path] is replaced even when it is the file the image was opened
    from.  A refused call is taken to leave the files as they were. *)
Definition image_save (img : Image) (out_path : string) (fmt : SaveFormat) : M unit :=
  fun w =>
    match encode lib img fmt with
    | None => (w, Raised EncoderError)
    | Some b =>
        (log_save out_path img fmt
           (set_fs (insert out_path {| content := b; mtime := clock w |}) w),
         Returned tt)
    end.

(** [img.convert(m)]: a new image of mode [m] with a copy of [img.info]. *)
Definition convert (img : Image) (m : string) : Image :=
  {| mode := m;
     bands := convert_bands lib (mode img) m (bands img);
     info := info img |}.

(** [img.getchannel(ch)] *)
Definition getchannel (img : Image) (ch : string) : Res Band :=
  match dict_get ch (bands img) with
  | Some b => Returned b
  | None => Raised ValueError
  end.

(** ** compress_jpegs.py *)

(** Lines 11-18; [names] is what [os.listdir] returned. *)
Fixpoint iter_images_of (w : World) (src_dir : string) (names : list string)
    : list string :=
  match names with
  | [] => []
  | name :: rest =>
      let path := Path.join src_dir name in
      if negb (isfile w path) then iter_images_of w src_dir rest
      else
        let ext := Path.lower (snd (Path.splitext name)) in
        if Path.str_in ext [".jpg"; ".jpeg"; ".png"]
        then path :: iter_images_of w src_dir rest
        else iter_images_of w src_dir rest
  end.

Definition iter_images (src_dir : string) : M (list string) :=
  fun w =>
    match listdir w src_dir with
    | Some names => (w, Returned (iter_images_of w src_dir names))
    | None => (w, Raised FileNotFoundError)
    end.

(** Lines 21-27. *)
Definition has_transparency (img : Image) : Res bool :=
  if Path.str_in (mode img) ["RGBA"; "LA"] then
    match getchannel img "A" with
    | Returned alpha => Returned (fst (getextrema alpha) <? 255)
    | Raised e => Raised e
    end
  else if String.eqb (mode img) "P" then
    Returned (dict_in "transparency" (info img))
  else Returned false.

(** A progress callback: [delta], [total] and the keyword [step] when it is
    passed. *)
Definition Callback : Type := Z -> Z -> option bool -> World -> World.

Definition call (progress_cb : option Callback) (delta total : Z)
    (step : option bool) : M unit :=
  match progress_cb with
  | Some cb => modify (cb delta total step)
  | None => ret tt
  end.

(** Lines 44-74 of the loop body: the routing by extension and by
    transparency, the conversion and the encoding.  Returns [out_path]. *)
Definition transcode (dst_dir : string) (quality : Z) (path : string) : M string :=
  let name := Path.basename path in
  let (base, ext0) := Path.splitext name in
  let ext := Path.lower ext0 in
  let out_path := Path.join dst_dir name in
  let out_is_jpeg := Path.str_in ext [".jpg"; ".jpeg"] in
  img <- image_open path ;;
  r <- (if String.eqb ext ".png" then
          t <- lift (has_transparency img) ;;
          if (t : bool) then
            let out_path := Path.join dst_dir (base +:+ ".png") in
            image_save img out_path (PNG true 9) ;;
            ret (out_path, false, img)
          else
            let out_path := Path.join dst_dir (base +:+ ".jpg") in
            let img := if negb (Path.str_in (mode img) ["RGB"; "L"])
                       then convert img "RGB" else img in
            ret (out_path, true, img)
        else ret (out_path, out_is_jpeg, img)) ;;
  let '(out_path, out_is_jpeg, img) := r in
  let img := if out_is_jpeg && negb (Path.str_in (mode img) ["RGB"; "L"])
             then convert img "RGB" else img in
  let exif := dict_get "exif" (info img) in
  let icc := dict_get "icc_profile" (info img) in
  (if (out_is_jpeg : bool)
   then image_save img out_path (JPEG quality true true exif icc)
   else ret tt) ;;
  ret out_path.

(** Lines 76-83 of the loop body.  Returns the final [out_path]. *)
Definition guard (dst_dir : string) (path out_path : string) : M string :=
  let name := Path.basename path in
  out_size <- getsize out_path ;;
  src_size <- getsize path ;;
  if src_size <? out_size then
    out_path <-
      (if negb (String.eqb out_path (Path.join dst_dir name)) then
         try_except_OSError (os_remove out_path) ;;
         ret (Path.join dst_dir name)
       else ret out_path) ;;
    shutil_copy2 path out_path ;;
    ret out_path
  else ret out_path.

(** Lines 44-83: one file through the pipeline. *)
Definition process_file (dst_dir : string) (quality : Z) (path : string) : M string :=
  out_path <- transcode dst_dir quality path ;;
  guard dst_dir path out_path.

(** Lines 43-86: the loop, [out_paths] being the list built so far. *)
Fixpoint for_files (dst_dir : string) (quality : Z) (progress_cb : option Callback)
    (total : Z) (files : list string) (out_paths : list string) : M (list string) :=
  match files with
  | [] => ret out_paths
  | path :: rest =>
      out_path <- process_file dst_dir quality path ;;
      call progress_cb 1 total (Some true) ;;
      for_files dst_dir quality progress_cb total rest (out_paths ++ [out_path])
  end.

(** [sum(os.path.getsize(p) for p in paths)] *)
Fixpoint sum_getsize (paths : list string) : M Z :=
  match paths with
  | [] => ret 0
  | p :: rest =>
      n <- getsize p ;;
      s <- sum_getsize rest ;;
      ret (n + s)
  end.

(** Lines 34-89. *)
Definition compress_dir_with_progress (src_dir dst_dir : string) (quality : Z)
    (progress_cb : option Callback) : M (Z * Z * Z) :=
  os_makedirs dst_dir ;;
  files <- iter_images src_dir ;;
  let total := Z.of_nat (List.length files) in
  call progress_cb 0 total None ;;
  out_paths <- for_files dst_dir quality progress_cb total files [] ;;
  src_bytes <- sum_getsize files ;;
  dst_bytes <- sum_getsize out_paths ;;
  ret (total, src_bytes, dst_bytes).

(** Lines 30-31. *)
Definition compress_dir (src_dir dst_dir : string) (quality : Z) : M (Z * Z * Z) :=
  compress_dir_with_progress src_dir dst_dir quality None.

(** Lines 92-98; the three printed lines are one [Printed] entry, with the
    byte counts before their rounding to megabytes. *)
Definition run_cli (src dst : string) (quality : Z) : M unit :=
  r <- compress_dir src dst quality ;;
  let '(count, src_bytes, dst_bytes) := r in
  modify (log_dialog (Printed count src_bytes dst_bytes)).

(** Lines 125-140 of [run_gui]: the update that the callback schedules on
    the GUI thread is applied at once. *)
Definition progress_cb : Callback :=
  fun delta total step w =>
    let step := match step with Some b => b | None => false end in
    let w := log_call (delta, total, Some step) w in
    if total =? 0 then set_progress_var 0 w
    else if step then set_progress_var (Z.min total (progress_var w + delta)) w
    else set_progress_var delta w.

(** A callback that only records how it was called. *)
Definition recording_cb : Callback :=
  fun delta total step w => log_call (delta, total, step) w.

(** Lines 142-161 of [run_gui]. *)
Definition run_worker (src dst : string) (quality : Z) : M unit :=
  r <- attempt (compress_dir_with_progress src dst quality (Some progress_cb)) ;;
  match r with
  | Raised exc =>
      modify (log_dialog (ErrorFailed exc)) ;;
      modify (set_ui_enabled true)
  | Returned (count, src_bytes, dst_bytes) =>
      modify (log_dialog (InfoDone count src_bytes dst_bytes)) ;;
      modify (set_ui_enabled true)
  end.

(** Lines 163-187 of [run_gui]: the handler of the start button, on the
    texts of the three entries.  The worker thread is run to its end. *)
Definition run (src_var dst_var quality_var : string) : M unit :=
  fun w =>
    let src := Path.strip src_var in
    let dst := Path.strip dst_var in
    if String.eqb src EmptyString || negb (isdir w src) then
      modify (log_dialog ErrorBadSource) w
    else if String.eqb dst EmptyString then
      modify (log_dialog ErrorNoDestination) w
    else
      match py_int lib quality_var with
      | None => modify (log_dialog ErrorQualityNotNumber) w
      | Some quality =>
          if (quality <? 1) || (95 <? quality) then
            modify (log_dialog ErrorQualityRange) w
          else
            (modify (set_progress_var 0) ;;
             modify (set_ui_enabled false) ;;
             run_worker src dst quality) w
      end.

End Program.

(** ** A small instance, to run the program on

    A file of the toy format is a tag byte followed by one byte for each
    pixel: tag [01] is an RGB image, tag [02] an RGBA image whose pixel
    bytes are the alpha values and which carries an EXIF blob, tag [03] a
    palette image with a transparency entry.  The PNG encoder writes the
    image back in this format; the JPEG encoder writes tag [01] and as many
    pixels as the quality, so that a high quality makes a large file. *)

Module Toy.

Definition Z_of_byte (b : Byte.byte) : Z := Z.of_N (Byte.to_N b).

Definition byte_of_Z (z : Z) : Byte.byte :=
  match Byte.of_N (Z.to_N z) with Some b => b | None => Byte.x00 end.

Definition band_of (p : Byte.byte) (ps : bytes) : Band :=
  (Z_of_byte p, map Z_of_byte ps).

Definition bytes_of (b : Band) : bytes :=
  byte_of_Z (fst b) :: map byte_of_Z (snd b).

Definition toy_decode (b : bytes) : option Image :=
  match b with
  | Byte.x01 :: p :: ps =>
      Some {| mode := "RGB"; bands := [("R", band_of p ps)]; info := [] |}
  | Byte.x02 :: p :: ps =>
      Some {| mode := "RGBA"; bands := [("A", band_of p ps)];
              info := [("exif", [Byte.x45; Byte.x78])] |}
  | Byte.x03 :: p :: ps =>
      Some {| mode := "P"; bands := [("P", band_of p ps)];
              info := [("transparency", [Byte.x00])] |}
  | _ => None
  end.

Definition toy_encode (img : Image) (fmt : SaveFormat) : option bytes :=
  match fmt with
  | PNG _ _ =>
      match bands img with
      | (_, b) :: _ =>
          Some ((if String.eqb (mode img) "RGBA" then Byte.x02
                 else if String.eqb (mode img) "P" then Byte.x03
                 else Byte.x01) :: bytes_of b)
      | [] => None
      end
  | JPEG quality _ _ _ _ => Some (Byte.x01 :: repeat Byte.x80 (Z.to_nat quality))
  end.

Fixpoint digits (s : string) (acc : Z) : option Z :=
  match s with
  | EmptyString => Some acc
  | String a s' =>
      let n := nat_of_ascii a in
      if ((48 <=? n) && (n <=? 57))%nat
      then digits s' (10 * acc + Z.of_nat (n - 48))
      else None
  end.

Definition toy_int (s : string) : option Z :=
  match s with
  | EmptyString => None
  | String "-" EmptyString => None
  | String "-" s' => option_map Z.opp (digits s' 0)
  | _ => digits s 0
  end.

Definition lib : Lib :=
  {| decode := toy_decode;
     convert_bands := fun _ _ b => map (fun kb => ("R", snd kb)) b;
     encode := toy_encode;
     py_int := toy_int |}.

(** The world with the files [files] (each stamped [-1]), in which [dir]
    lists [names] and nothing has happened yet. *)
Definition world (files : list (string * bytes)) (dir : string)
    (names : list string) (deny : string -> bool) : World :=
  {| fs := list_to_map
             (map (fun pb => (fst pb, {| content := snd pb; mtime := -1 |})) files);
     listdir := fun d => if String.eqb d dir then Some names else None;
     isdir := fun d => String.eqb d dir;
     denied := deny;
     clock := 0; saves := []; calls := []; progress_var := 0;
     ui_enabled := true; dialogs := [] |}.

(** The bytes at [path], if it is a file. *)
Definition read (w : World) (path : string) : option bytes :=
  option_map content (fs w !! path).

End Toy.

(** Files and worlds of the toy format, for the examples. *)

Module Demo.

Definition photo : bytes := [Byte.x01; Byte.x10; Byte.x20; Byte.x30].
Definition cutout : bytes := [Byte.x02; Byte.xff; Byte.x00].
Definition opaque : bytes := [Byte.x02; Byte.xff; Byte.xff].
Definition garbage : bytes := [Byte.x00].

Definition no_deny : string -> bool := fun _ => false.

Definition file_of (b : bytes) : File := {| content := b; mtime := -1 |}.

(** What [Toy.toy_decode] makes of [cutout] and of [opaque]. *)
Definition cutout_img : Image :=
  {| mode := "RGBA"; bands := [("A", (255, [0]))];
     info := [("exif", [Byte.x45; Byte.x78])] |}.

Definition opaque_img : Image :=
  {| mode := "RGBA"; bands := [("A", (255, [255]))];
     info := [("exif", [Byte.x45; Byte.x78])] |}.

(** A source folder with a JPEG, two PNGs, a text file and a listed name
    that is not a file. *)
Definition w_batch : World :=
  Toy.world [("in/a.jpg", photo); ("in/b.PNG", cutout); ("in/c.png", opaque);
             ("in/d.txt", photo)]
    "in" ["a.jpg"; "b.PNG"; "c.png"; "d.txt"; "ghost.png"] no_deny.

(** A source folder whose second file cannot be decoded. *)
Definition w_bad : World :=
  Toy.world [("in/a.jpg", photo); ("in/b.jpg", garbage); ("in/c.jpg", photo)]
    "in" ["a.jpg"; "b.jpg"; "c.jpg"] no_deny.

(** A folder that is compressed onto itself. *)
Definition w_in_place : World :=
  Toy.world [("d/a.jpg", [Byte.x01; Byte.x10])] "d" ["a.jpg"] no_deny.

(** A source folder with one JPEG, for the command line. *)
Definition w_cli : World := Toy.world [("in/a.jpg", photo)] "in" ["a.jpg"] no_deny.

(** An artifact of five bytes for a source of three, just before the Guard;
    [deny] says where a removal is refused. *)
Definition w_regressed (deny : string -> bool) : World :=
  Toy.world [("in/c.png", opaque);
             ("out/c.jpg", [Byte.x01; Byte.x80; Byte.x80; Byte.x80; Byte.x80])]
    "in" ["c.png"] deny.

End Demo.

(** The toy library with a JPEG encoder that takes the length of the blob
    it is given for [exif], and so refuses [None] there; [icc_profile] may
    be [None]. *)

Module Strict.

Definition strict_encode (img : Image) (fmt : SaveFormat) : option bytes :=
  match fmt with
  | JPEG _ _ _ None _ => None
  | _ => Toy.toy_encode img fmt
  end.

Definition lib : Lib :=
  {| decode := Toy.toy_decode;
     convert_bands := convert_bands Toy.lib;
     encode := strict_encode;
     py_int := Toy.toy_int |}.


End Strict.

(** ** Vocabulary of the statements *)

(** [m] is the least value of the band [b]. *)
Definition is_least (m : Z) (b : Band) : Prop :=
  In m (fst b :: snd b) /\ forall x, In x (fst b :: snd b) -> m <= x.

(** The image handed to the JPEG encoder: [img] itself when its mode is RGB
    or L, its conversion to RGB otherwise (lines 57-58 and 61-62). *)
Definition jpeg_ready (lib : Lib) (img : Image) : Image :=
  if negb (Path.str_in (mode img) ["RGB"; "L"]) then convert lib img "RGB" else img.

(** The size in bytes of the file at [path], if there is one. *)
Definition size_at (w : World) (path : string) : option Z :=
  option_map (fun f => Z.of_nat (List.length (content f))) (fs w !! path).

(** The sum of the [delta]s of a list of callback calls. *)
Definition cumulative (cs : list (Z * Z * option bool)) : Z :=
  fold_right (fun c acc => fst (fst c) + acc) 0 cs.

(** ** Vocabulary of the statements on the whole batch *)

(** The paths at which the pipeline may write or remove a file for the
    source [path]: the name of the source, and its base name with [.png] and
    with [.jpg], all joined to [dst_dir] (lines 47, 52, 56 and 82). *)
Definition outputs_of (dst_dir path : string) : list string :=
  let name := Path.basename path in
  let base := fst (Path.splitext name) in
  [Path.join dst_dir name;
   Path.join dst_dir (base +:+ ".png");
   Path.join dst_dir (base +:+ ".jpg")].

Definition touched (dst_dir : string) (files : list string) : list string :=
  flat_map (outputs_of dst_dir) files.

(** No two of [files] share a possible output path. *)
Fixpoint separate (dst_dir : string) (files : list string) : Prop :=
  match files with
  | [] => True
  | path :: rest =>
      (forall o, In o (outputs_of dst_dir path) -> ~ In o (touched dst_dir rest))
      /\ separate dst_dir rest
  end.

(** A callback that leaves the files alone. *)
Definition quiet (cb : option Callback) : Prop :=
  forall f, cb = Some f -> forall delta total step w, fs (f delta total step w) = fs w.

(** The sum of the sizes of the files at [paths], if they all exist. *)
Fixpoint sum_sizes (m : gmap string File) (paths : list string) : option Z :=
  match paths with
  | [] => Some 0
  | p :: rest =>
      match m !! p, sum_sizes m rest with
      | Some f, Some s => Some (Z.of_nat (List.length (content f)) + s)
      | _, _ => None
      end
  end.

(** Two worlds that differ at most in what the callback and the GUI keep:
    the progress calls, the progress value, the state of the widgets and the
    message boxes. *)
Definition same_job (w1 w2 : World) : Prop :=
  fs w1 = fs w2 /\ listdir w1 = listdir w2 /\ denied w1 = denied w2
  /\ clock w1 = clock w2 /\ saves w1 = saves w2.

(** A callback that only observes. *)
Definition observer (cb : option Callback) : Prop :=
  forall f, cb = Some f -> forall delta total step w, same_job (f delta total step w) w.

(** [m] does the same job in two worlds that agree on the job. *)
Definition respects {A} (m1 m2 : M A) : Prop :=
  forall w1 w2, same_job w1 w2 ->
    snd (m1 w1) = snd (m2 w2) /\ same_job (fst (m1 w1)) (fst (m2 w2)).

(** A name as [os.listdir] gives it: no separator in it. *)
Fixpoint no_sep (s : string) : bool :=
  match s with
  | EmptyString => true
  | String a s' => negb (Ascii.eqb a "/") && no_sep s'
  end.

(** Worlds for the examples of the batch properties. *)
Module Cases.

(** A folder compressed onto itself, with an opaque PNG in it. *)
Definition w_png_in_place : World :=
  Toy.world [("d/c.png", Demo.opaque); ("d/c.jpg", Demo.photo)]
    "d" ["c.png"; "c.jpg"] Demo.no_deny.

End Cases.

(** An encoder call as the program makes them: a PNG save with
    [optimize=True] and [compress_level=9] of an image with transparency, or
    a JPEG save with the quality of the batch, [optimize=True] and
    [progressive=True] of an image in mode RGB or L. *)
Definition good_save (quality : Z) (s : string * Image * SaveFormat) : Prop :=
  match snd s with
  | PNG optimize level =>
      optimize = true /\ level = 9
      /\ has_transparency (snd (fst s)) = Returned true
  | JPEG q optimize progressive _ _ =>
      q = quality /\ optimize = true /\ progressive = true
      /\ (mode (snd (fst s)) = "RGB" \/ mode (snd (fst s)) = "L")
  end.

(** A callback that leaves the record of the encoder calls alone. *)
Definition keeps_saves (cb : option Callback) : Prop :=
  forall f, cb = Some f -> forall delta total step w, saves (f delta total step w) = saves w.

(** A source folder with a JPEG and an opaque PNG of one base name. *)
Module Collide.

Definition w_same_base : World :=
  Toy.world [("in/a.jpg", Demo.photo); ("in/a.png", Demo.opaque)]
    "in" ["a.jpg"; "a.png"] Demo.no_deny.

(** The world after [in/a.jpg] has gone through the pipeline. *)
Definition w_after_jpg : World :=
  fst (process_file Toy.lib "out" 2 "in/a.jpg" w_same_base).

End Collide.

(** Closes a goal that a path is not in a list of other paths. *)
Ltac not_listed :=
  intros; cbn in *;
  repeat match goal with
         | H : _ \/ _ |- _ => destruct H
         | H : False |- _ => destruct H
         | H : _ = _ |- _ => first [discriminate H | subst]
         | |- ~ _ => intro
         end.

(** [m] leaves the observation [P] of the world as it was, whether it
    returns or raises. *)
Definition preserves {X A} (P : World -> X) (m : M A) : Prop :=
  forall w, P (fst (m w)) = P w.

(** * Properties *)

(** ** Paths *)

Example join_plain : Path.join "out" "a.png" = "out/a.png".
Proof. reflexivity. Qed.

Example join_trailing_sep : Path.join "out/" "a.png" = "out/a.png".
Proof. reflexivity. Qed.

Example basename_nested : Path.basename "in/sub/Photo.JPG" = "Photo.JPG".
Proof. reflexivity. Qed.

Example splitext_upper : Path.splitext "Photo.JPG" = ("Photo", ".JPG").
Proof. reflexivity. Qed.

Example splitext_two_dots : Path.splitext "a.tar.png" = ("a.tar", ".png").
Proof. reflexivity. Qed.

Example splitext_hidden : Path.splitext ".png" = (".png", EmptyString).
Proof. reflexivity. Qed.

Example lower_ext : Path.lower ".JpEg" = ".jpeg".
Proof. reflexivity. Qed.

Example strip_both : Path.strip "  in dir  " = "in dir".
Proof. reflexivity. Qed.

(** The separators U+001C..U+001F are white space to [str.strip]. *)
Example strip_separators :
  Path.strip (String (ascii_of_nat 28) ("in" +:+ String (ascii_of_nat 31) EmptyString))
  = "in"
  /\ Path.strip (String (ascii_of_nat 28) EmptyString) = EmptyString.
Proof. split; vm_compute; reflexivity. Qed.

(** So are U+3000 ([E3 80 80]) and U+00A0 ([C2 A0]); a lone continuation
    byte is not. *)
Example strip_wide_spaces :
  Path.strip
    (String (ascii_of_nat 227) (String (ascii_of_nat 128) (String (ascii_of_nat 128)
       ("in dir" +:+ String (ascii_of_nat 194) (String (ascii_of_nat 160) " ")))))
  = "in dir"
  /\ Path.strip (String (ascii_of_nat 195) (String (ascii_of_nat 160) " "))
     = String (ascii_of_nat 195) (String (ascii_of_nat 160) EmptyString).
Proof. split; vm_compute; reflexivity. Qed.

(** ** The Inspector: [has_transparency] *)

Lemma fold_min_spec (l : list Z) (a : Z) :
  In (fold_left Z.min l a) (a :: l) /\
  forall x, In x (a :: l) -> fold_left Z.min l a <= x.
Proof.
  revert a. induction l as [|y l IH]; intros a; cbn [fold_left].
  - split; [now left | intros x [<-|[]]; lia].
  - destruct (IH (Z.min a y)) as [Hin Hle]. split.
    + destruct Hin as [Heq|Hin].
      * rewrite <- Heq.
        destruct (Z.min_spec a y) as [[_ ->]|[_ ->]]; simpl; auto.
      * right; right; exact Hin.
    + intros x [<-|[<-|Hx]].
      * specialize (Hle (Z.min a y) (or_introl eq_refl)). lia.
      * specialize (Hle (Z.min a y) (or_introl eq_refl)). lia.
      * apply Hle. right; exact Hx.
Qed.

Lemma getextrema_least (b : Band) : is_least (fst (getextrema b)) b.
Proof. destruct b as [a l]. apply fold_min_spec. Qed.


Lemma str_in_2 (x a b : string) :
  Path.str_in x [a; b] = true <-> x = a \/ x = b.
Proof.
  unfold Path.str_in; simpl. rewrite !orb_true_iff, !String.eqb_eq.
  intuition discriminate.
Qed.

Lemma str_in_2_false (x a b : string) :
  Path.str_in x [a; b] = false <-> x <> a /\ x <> b.
Proof.
  rewrite <- not_true_iff_false, str_in_2. tauto.
Qed.


(** An alpha band whose pixels are all fully opaque is not transparency. *)
Lemma opaque_alpha_not_transparent (img : Image) (alpha : Band) :
  mode img = "RGBA" \/ mode img = "LA" ->
  getchannel img "A" = Returned alpha ->
  (forall x, In x (fst alpha :: snd alpha) -> x = 255) ->
  has_transparency img = Returned false.
Proof.
  intros Hm Hc Hall. unfold has_transparency.
  apply str_in_2 in Hm. rewrite Hm, Hc. f_equal.
  destruct (getextrema_least alpha) as [Hin _].
  apply Hall in Hin. apply Z.ltb_ge. lia.
Qed.

(** ** The Transcoder: what [transcode] does on each route *)

Section Transcoder.

Context (lib : Lib).

Lemma jpeg_ready_info (img : Image) : info (jpeg_ready lib img) = info img.
Proof. unfold jpeg_ready. now destruct (negb _). Qed.

Lemma jpeg_ready_mode (img : Image) :
  mode (jpeg_ready lib img) = if String.eqb (mode img) "L" then "L" else "RGB".
Proof.
  unfold jpeg_ready.
  destruct (Path.str_in (mode img) ["RGB"; "L"]) eqn:Hm; simpl.
  - apply str_in_2 in Hm. destruct Hm as [-> | ->]; reflexivity.
  - apply str_in_2_false in Hm. destruct Hm as [_ HL].
    apply String.eqb_neq in HL. now rewrite HL.
Qed.

Lemma jpeg_ready_idem (img : Image) :
  jpeg_ready lib (jpeg_ready lib img) = jpeg_ready lib img.
Proof.
  unfold jpeg_ready at 1.
  assert (H : Path.str_in (mode (jpeg_ready lib img)) ["RGB"; "L"] = true).
  { apply str_in_2. rewrite jpeg_ready_mode.
    destruct (String.eqb (mode img) "L"); auto. }
  now rewrite H.
Qed.

Variables (dst_dir : string) (quality : Z) (path base ext0 : string).
Variables (w : World) (f : File) (img : Image).

Hypothesis Hsplit : Path.splitext (Path.basename path) = (base, ext0).
Hypothesis Hfile : fs w !! path = Some f.
Hypothesis Hdecode : decode lib (content f) = Some img.

(** A PNG with transparency: one PNG save of the image as opened. *)
Lemma transcode_png_transparent :
  Path.lower ext0 = ".png" ->
  has_transparency img = Returned true ->
  transcode lib dst_dir quality path w =
  (image_save lib img (Path.join dst_dir (base +:+ ".png")) (PNG true 9) ;;
   ret (Path.join dst_dir (base +:+ ".png"))) w.
Proof.
  intros Hext Ht. unfold transcode. rewrite Hsplit, Hext.
  unfold bind at 1, image_open. rewrite Hfile, Hdecode.
  cbn [String.eqb Ascii.eqb Bool.eqb]. unfold bind at 1. unfold bind at 1, lift. rewrite Ht.
  unfold bind.
  destruct (image_save lib img _ (PNG true 9) w) as [w1 [[]|e]]; reflexivity.
Qed.

(** A PNG without transparency: one JPEG save, under the [.jpg] name. *)
Lemma transcode_png_opaque :
  Path.lower ext0 = ".png" ->
  has_transparency img = Returned false ->
  transcode lib dst_dir quality path w =
  (image_save lib (jpeg_ready lib img) (Path.join dst_dir (base +:+ ".jpg"))
     (JPEG quality true true (dict_get "exif" (info img))
        (dict_get "icc_profile" (info img))) ;;
   ret (Path.join dst_dir (base +:+ ".jpg"))) w.
Proof.
  intros Hext Ht. unfold transcode. rewrite Hsplit, Hext.
  unfold bind at 1, image_open. rewrite Hfile, Hdecode.
  cbn [String.eqb Ascii.eqb Bool.eqb]. unfold bind at 1. unfold bind at 1, lift. rewrite Ht.
  unfold ret at 1. cbn [andb].
  fold (jpeg_ready lib img). fold (jpeg_ready lib (jpeg_ready lib img)).
  rewrite jpeg_ready_idem, jpeg_ready_info. reflexivity.
Qed.

(** A JPEG: one JPEG save, under the name of the source. *)
Lemma transcode_jpeg :
  Path.str_in (Path.lower ext0) [".jpg"; ".jpeg"] = true ->
  transcode lib dst_dir quality path w =
  (image_save lib (jpeg_ready lib img) (Path.join dst_dir (Path.basename path))
     (JPEG quality true true (dict_get "exif" (info img))
        (dict_get "icc_profile" (info img))) ;;
   ret (Path.join dst_dir (Path.basename path))) w.
Proof.
  intros Hext. unfold transcode. rewrite Hsplit, Hext.
  assert (Hpng : String.eqb (Path.lower ext0) ".png" = false).
  { apply str_in_2 in Hext. destruct Hext as [-> | ->]; reflexivity. }
  rewrite Hpng.
  unfold bind at 1, image_open. rewrite Hfile, Hdecode.
  unfold bind at 1. unfold ret at 1. cbn [andb].
  fold (jpeg_ready lib img).
  rewrite jpeg_ready_info. reflexivity.
Qed.

End Transcoder.

(** ** What a computation leaves unchanged *)

Section Frame.

Context (lib : Lib) {X : Type} (P : World -> X).

Lemma preserves_ret {A} (a : A) : preserves P (ret a).
Proof. intros w. reflexivity. Qed.

Lemma preserves_lift {A} (r : Res A) : preserves P (lift r).
Proof. intros w. reflexivity. Qed.

Lemma preserves_raise {A} (e : exn) : preserves P (@raise A e).
Proof. intros w. reflexivity. Qed.

Lemma preserves_bind {A B} (m : M A) (k : A -> M B) :
  preserves P m -> (forall a, preserves P (k a)) -> preserves P (bind m k).
Proof.
  intros Hm Hk w. unfold bind. specialize (Hm w).
  destruct (m w) as [w1 [a|e]]; simpl in *.
  - now rewrite Hk.
  - exact Hm.
Qed.

Lemma preserves_try_except_OSError (m : M unit) :
  preserves P m -> preserves P (try_except_OSError m).
Proof.
  intros Hm w. unfold try_except_OSError. specialize (Hm w).
  destruct (m w) as [w1 [a|e]]; simpl in *; [exact Hm|].
  now destruct (is_OSError e).
Qed.

Lemma preserves_getsize (p : string) : preserves P (getsize p).
Proof. intros w. unfold getsize. now destruct (fs w !! p). Qed.

Lemma preserves_image_open (p : string) : preserves P (image_open lib p).
Proof.
  intros w. unfold image_open. destruct (fs w !! p); [|reflexivity].
  now destruct (decode lib _).
Qed.

Hypothesis P_set_fs : forall g w, P (set_fs g w) = P w.

Lemma preserves_os_remove (p : string) : preserves P (os_remove p).
Proof.
  intros w. unfold os_remove. destruct (denied w p); [reflexivity|].
  destruct (fs w !! p); [apply P_set_fs | reflexivity].
Qed.

Lemma preserves_shutil_copy2 (src dst : string) : preserves P (shutil_copy2 src dst).
Proof.
  intros w. unfold shutil_copy2. destruct (fs w !! src); [|reflexivity].
  destruct (String.eqb src dst); [reflexivity | apply P_set_fs].
Qed.

Lemma preserves_guard (dst_dir path out_path : string) :
  preserves P (guard dst_dir path out_path).
Proof.
  unfold guard.
  apply preserves_bind; [apply preserves_getsize | intros out_size].
  apply preserves_bind; [apply preserves_getsize | intros src_size].
  destruct (src_size <? out_size); [|apply preserves_ret].
  apply preserves_bind.
  - destruct (negb _); [|apply preserves_ret].
    apply preserves_bind; [|intros; apply preserves_ret].
    apply preserves_try_except_OSError, preserves_os_remove.
  - intros p. apply preserves_bind; [apply preserves_shutil_copy2|].
    intros; apply preserves_ret.
Qed.

Hypothesis P_log_save : forall p i s w, P (log_save p i s w) = P w.

Lemma preserves_image_save (img : Image) (p : string) (fmt : SaveFormat) :
  preserves P (image_save lib img p fmt).
Proof.
  intros w. unfold image_save. destruct (encode lib img fmt); [|reflexivity].
  simpl. now rewrite P_log_save, P_set_fs.
Qed.

Lemma preserves_transcode (dst_dir : string) (quality : Z) (path : string) :
  preserves P (transcode lib dst_dir quality path).
Proof.
  unfold transcode. destruct (Path.splitext _) as [base ext0].
  apply preserves_bind; [apply preserves_image_open | intros img].
  apply preserves_bind.
  - destruct (String.eqb _ _); [|apply preserves_ret].
    apply preserves_bind; [apply preserves_lift | intros [|]].
    + apply preserves_bind; [apply preserves_image_save|].
      intros; apply preserves_ret.
    + apply preserves_ret.
  - intros [[out_path [|]] img']; cbn [andb].
    + apply preserves_bind; [apply preserves_image_save|].
      intros; apply preserves_ret.
    + apply preserves_bind; [apply preserves_ret|].
      intros; apply preserves_ret.
Qed.

Lemma preserves_process_file (dst_dir : string) (quality : Z) (path : string) :
  preserves P (process_file lib dst_dir quality path).
Proof.
  unfold process_file.
  apply preserves_bind; [apply preserves_transcode | intros; apply preserves_guard].
Qed.

Lemma preserves_sum_getsize (paths : list string) : preserves P (sum_getsize paths).
Proof.
  induction paths as [|p rest IH]; simpl.
  - apply preserves_ret.
  - apply preserves_bind; [apply preserves_getsize | intros n].
    apply preserves_bind; [exact IH | intros; apply preserves_ret].
Qed.

End Frame.

(** ** The Guard *)

Lemma fs_set_fs (g : gmap string File -> gmap string File) (w : World) :
  fs (set_fs g w) = g (fs w).
Proof. reflexivity. Qed.

Section Guard.

Variables (dst_dir path out_path : string) (w : World) (fsrc fout : File).

Hypothesis Hsrc : fs w !! path = Some fsrc.
Hypothesis Hout : fs w !! out_path = Some fout.

(** No regression: the Guard leaves everything as it is. *)
Lemma guard_keeps :
  (List.length (content fout) <= List.length (content fsrc))%nat ->
  guard dst_dir path out_path w = (w, Returned out_path).
Proof.
  intros Hle. unfold guard, bind, getsize. rewrite Hout, Hsrc.
  assert (H : (Z.of_nat (List.length (content fsrc))
               <? Z.of_nat (List.length (content fout))) = false)
    by (apply Z.ltb_ge; lia).
  now rewrite H.
Qed.

Hypothesis Hbigger : (List.length (content fsrc) < List.length (content fout))%nat.

Lemma regressed_not_in_place : path <> out_path.
Proof. intros ->. rewrite Hsrc in Hout. injection Hout as ->. lia. Qed.

(** Regression, the artifact already under the name of the source: the copy
    overwrites it. *)
Lemma guard_overwrites :
  out_path = Path.join dst_dir (Path.basename path) ->
  guard dst_dir path out_path w =
  (set_fs (insert out_path fsrc) w, Returned out_path).
Proof.
  intros Heq. unfold guard, bind, getsize. rewrite Hout, Hsrc.
  assert (H : (Z.of_nat (List.length (content fsrc))
               <? Z.of_nat (List.length (content fout))) = true)
    by (apply Z.ltb_lt; lia).
  rewrite H. rewrite <- Heq, String.eqb_refl. cbn [negb]. unfold ret at 1.
  unfold shutil_copy2. rewrite Hsrc.
  destruct (String.eqb path out_path) eqn:E.
  - apply String.eqb_eq in E. now destruct regressed_not_in_place.
  - reflexivity.
Qed.

(** Regression, the artifact under another name: it is removed when the
    operating system allows, and the source is copied under its own name. *)
Lemma guard_renames :
  out_path <> Path.join dst_dir (Path.basename path) ->
  let target := Path.join dst_dir (Path.basename path) in
  let w1 := if denied w out_path then w else set_fs (delete out_path) w in
  guard dst_dir path out_path w =
  if String.eqb path target then (w1, Raised SameFileError)
  else (set_fs (insert target fsrc) w1, Returned target).
Proof.
  intros Hne target w1. unfold guard, bind, getsize. rewrite Hout, Hsrc.
  assert (H : (Z.of_nat (List.length (content fsrc))
               <? Z.of_nat (List.length (content fout))) = true)
    by (apply Z.ltb_lt; lia).
  rewrite H. fold target.
  apply String.eqb_neq in Hne. fold target in Hne. rewrite Hne. cbn [negb].
  assert (Hrm : try_except_OSError (os_remove out_path) w = (w1, Returned tt)).
  { unfold try_except_OSError, os_remove, w1.
    destruct (denied w out_path); [reflexivity|]. now rewrite Hout. }
  rewrite Hrm. unfold ret at 1. unfold shutil_copy2.
  assert (Hsrc1 : fs w1 !! path = Some fsrc).
  { unfold w1. destruct (denied w out_path); [exact Hsrc|].
    rewrite fs_set_fs, lookup_delete_ne; [exact Hsrc|].
    intros E. now apply regressed_not_in_place. }
  rewrite Hsrc1. now destruct (String.eqb path target).
Qed.

End Guard.

(** C7.  When the artifact is larger than the source, the Guard ends with
    the source file, bytes and modification time, under the source's own
    name in the destination; an artifact written under another name has
    been removed, unless the removal was refused, which stops nothing; the
    Guard returns the source's own name (only a destination that is the
    source itself makes the copy raise); no other file changes. *)
Theorem guard_fallback (dst_dir path out_path : string) (w : World)
    (fsrc fout : File) :
  fs w !! path = Some fsrc ->
  fs w !! out_path = Some fout ->
  (List.length (content fsrc) < List.length (content fout))%nat ->
  let target := Path.join dst_dir (Path.basename path) in
  let w' := fst (guard dst_dir path out_path w) in
  fs w' !! target = Some fsrc
  /\ (out_path <> target ->
      fs w' !! out_path = if denied w out_path then Some fout else None)
  /\ (path <> target -> snd (guard dst_dir path out_path w) = Returned target)
  /\ (forall p, p <> out_path -> p <> target -> fs w' !! p = fs w !! p).
Proof.
  intros Hsrc Hout Hbig target w'.
  pose proof (regressed_not_in_place path out_path w fsrc fout Hsrc Hout Hbig) as Hpo.
  destruct (decide (out_path = target)) as [Heq|Hne].
  - unfold w'.
    rewrite (guard_overwrites dst_dir path out_path w fsrc fout Hsrc Hout Hbig Heq).
    cbn [fst snd]. rewrite fs_set_fs, <- Heq.
    repeat split.
    + apply lookup_insert_eq.
    + intros H; now destruct H.
    + intros p Hp _. now rewrite lookup_insert_ne.
  - unfold w'.
    rewrite (guard_renames dst_dir path out_path w fsrc fout Hsrc Hout Hbig Hne).
    fold target.
    assert (Hw1 : forall p, p <> out_path ->
              fs (if denied w out_path then w else set_fs (delete out_path) w) !! p
              = fs w !! p).
    { intros p Hp. destruct (denied w out_path); [reflexivity|].
      now rewrite fs_set_fs, lookup_delete_ne. }
    destruct (String.eqb path target) eqn:E; cbn [fst snd].
    + apply String.eqb_eq in E. repeat split.
      * rewrite <- E, Hw1; [exact Hsrc | exact Hpo].
      * intros _. destruct (denied w out_path); [exact Hout|].
        rewrite fs_set_fs. apply lookup_delete_eq.
      * intros H; now destruct H.
      * intros p Hp _. now apply Hw1.
    + repeat split.
      * rewrite fs_set_fs. apply lookup_insert_eq.
      * intros _. rewrite fs_set_fs, lookup_insert_ne by congruence.
        destruct (denied w out_path); [exact Hout|].
        rewrite fs_set_fs. apply lookup_delete_eq.
      * intros p Hp Hpt. rewrite fs_set_fs, lookup_insert_ne by congruence.
        now apply Hw1.
Qed.

(** ** The routes of the Transcoder, claim by claim *)




Section Routes.

Context (lib : Lib).

Lemma image_save_ok (img : Image) (p : string) (fmt : SaveFormat) (b : bytes)
    (w : World) :
  encode lib img fmt = Some b ->
  image_save lib img p fmt w =
  (log_save p img fmt (set_fs (insert p {| content := b; mtime := clock w |}) w),
   Returned tt).
Proof. intros H. unfold image_save. now rewrite H. Qed.

Lemma image_save_refused (img : Image) (p : string) (fmt : SaveFormat) (w : World) :
  encode lib img fmt = None ->
  image_save lib img p fmt w = (w, Raised EncoderError).
Proof. intros H. unfold image_save. now rewrite H. Qed.

(** C5.  A PNG source without transparency goes to the lossy container: the
    one save is a JPEG save under the base name of the source with the
    extension [.jpg], of the image converted to RGB, or left as it is when
    its mode is L (or already RGB). *)
Theorem png_without_transparency_to_jpeg (dst_dir : string) (quality : Z)
    (path base ext0 : string) (w : World) (f : File) (img : Image) :
  Path.splitext (Path.basename path) = (base, ext0) ->
  Path.lower ext0 = ".png" ->
  fs w !! path = Some f ->
  decode lib (content f) = Some img ->
  has_transparency img = Returned false ->
  let out := Path.join dst_dir (base +:+ ".jpg") in
  let img' := jpeg_ready lib img in
  let fmt := JPEG quality true true (dict_get "exif" (info img))
               (dict_get "icc_profile" (info img)) in
  mode img' = (if String.eqb (mode img) "L" then "L" else "RGB")
  /\ (mode img <> "RGB" -> mode img <> "L" -> img' = convert lib img "RGB")
  /\ (mode img = "RGB" \/ mode img = "L" -> img' = img)
  /\ transcode lib dst_dir quality path w = (image_save lib img' out fmt ;; ret out) w
  /\ (forall b, encode lib img' fmt = Some b ->
        snd (transcode lib dst_dir quality path w) = Returned out
        /\ saves (fst (transcode lib dst_dir quality path w))
           = (saves w ++ [(out, img', fmt)])%list
        /\ fs (fst (transcode lib dst_dir quality path w)) !! out
           = Some {| content := b; mtime := clock w |}).
Proof.
  intros Hsplit Hext Hfile Hdec Ht out img' fmt.
  pose proof (transcode_png_opaque lib dst_dir quality path base ext0 w f img
                Hsplit Hfile Hdec Hext Ht) as Heq.
  fold out img' fmt in Heq.
  split; [apply jpeg_ready_mode|].
  split.
  { intros H1 H2. unfold img', jpeg_ready.
    assert (H : Path.str_in (mode img) ["RGB"; "L"] = false)
      by (apply str_in_2_false; auto).
    now rewrite H. }
  split.
  { intros H. apply str_in_2 in H. unfold img', jpeg_ready. now rewrite H. }
  split; [exact Heq|].
  intros b Hb. rewrite Heq. unfold bind.
  rewrite (image_save_ok _ _ _ b _ Hb). cbn [fst snd ret].
  repeat split. apply lookup_insert_eq.
Qed.


(** C10.  For a PNG source with transparency the pipeline does not look at
    the quality: two qualities give the same world and the same result. *)
Theorem transparent_png_ignores_quality (dst_dir : string) (q1 q2 : Z)
    (path base ext0 : string) (w : World) (f : File) (img : Image) :
  Path.splitext (Path.basename path) = (base, ext0) ->
  Path.lower ext0 = ".png" ->
  fs w !! path = Some f ->
  decode lib (content f) = Some img ->
  has_transparency img = Returned true ->
  process_file lib dst_dir q1 path w = process_file lib dst_dir q2 path w.
Proof.
  intros Hsplit Hext Hfile Hdec Ht. unfold process_file, bind.
  rewrite (transcode_png_transparent lib dst_dir q1 path base ext0 w f img
             Hsplit Hfile Hdec Hext Ht).
  rewrite (transcode_png_transparent lib dst_dir q2 path base ext0 w f img
             Hsplit Hfile Hdec Hext Ht).
  reflexivity.
Qed.

End Routes.

(** ** The lossless route, through the Guard *)

Lemma fs_log_save (p : string) (img : Image) (fmt : SaveFormat) (w : World) :
  fs (log_save p img fmt w) = fs w.
Proof. reflexivity. Qed.


(** ** The size of the output *)

(** After the Guard, the output is no larger than the file that is at the
    source path when the Guard runs, and is that file when the artifact was
    larger. *)
Lemma guard_bound (dst_dir path out_path : string) (w w' : World) (out' : string) :
  guard dst_dir path out_path w = (w', Returned out') ->
  exists fsrc f',
    fs w !! path = Some fsrc
    /\ fs w' !! path = Some fsrc
    /\ fs w' !! out' = Some f'
    /\ (List.length (content f') <= List.length (content fsrc))%nat
    /\ (forall fout, fs w !! out_path = Some fout ->
          (List.length (content fsrc) < List.length (content fout))%nat ->
          f' = fsrc).
Proof.
  intros Hrun.
  destruct (fs w !! out_path) as [fout|] eqn:Hout.
  2:{ unfold guard, bind, getsize in Hrun. rewrite Hout in Hrun. discriminate. }
  destruct (fs w !! path) as [fsrc|] eqn:Hsrc.
  2:{ unfold guard, bind, getsize in Hrun. rewrite Hout, Hsrc in Hrun.
      discriminate. }
  exists fsrc.
  destruct (le_lt_dec (List.length (content fout)) (List.length (content fsrc)))
    as [Hle|Hlt].
  - rewrite (guard_keeps dst_dir path out_path w fsrc fout Hsrc Hout Hle) in Hrun.
    injection Hrun as <- <-. exists fout. repeat split; auto.
    intros fo [= <-] ?. lia.
  - pose proof (regressed_not_in_place path out_path w fsrc fout Hsrc Hout Hlt)
      as Hpo.
    exists fsrc.
    destruct (decide (out_path = Path.join dst_dir (Path.basename path)))
      as [Hsame|Hren].
    + rewrite (guard_overwrites dst_dir path out_path w fsrc fout Hsrc Hout Hlt
                 Hsame) in Hrun.
      injection Hrun as <- <-. rewrite fs_set_fs.
      rewrite lookup_insert_eq, lookup_insert_ne by congruence. auto.
    + rewrite (guard_renames dst_dir path out_path w fsrc fout Hsrc Hout Hlt Hren)
        in Hrun.
      destruct (String.eqb path _) eqn:E; [discriminate|].
      apply String.eqb_neq in E.
      injection Hrun as <- <-. rewrite fs_set_fs.
      rewrite lookup_insert_eq, lookup_insert_ne by congruence.
      repeat split; auto.
      destruct (denied w out_path); [exact Hsrc|].
      rewrite fs_set_fs, lookup_delete_ne by congruence. exact Hsrc.
Qed.

(** The Transcoder writes at most the file whose path it returns. *)
Lemma transcode_frame (lib : Lib) (dst_dir : string) (quality : Z)
    (path : string) (w w1 : World) (out : string) :
  transcode lib dst_dir quality path w = (w1, Returned out) ->
  forall p, p <> out -> fs w1 !! p = fs w !! p.
Proof.
  unfold transcode. destruct (Path.splitext _) as [base ext0].
  unfold bind, image_open, lift, ret.
  destruct (fs w !! path) as [f|]; [|discriminate].
  destruct (decode lib (content f)) as [img|]; [|discriminate].
  assert (Hsave : forall i o fmt wa wb, image_save lib i o fmt wa = (wb, Returned tt) ->
            forall p, p <> o -> fs wb !! p = fs wa !! p).
  { intros i o fmt wa wb. unfold image_save.
    destruct (encode lib i fmt); [|discriminate].
    intros [= <-] p Hp. rewrite fs_log_save, fs_set_fs. now apply lookup_insert_ne. }
  destruct (String.eqb (Path.lower ext0) ".png").
  - destruct (has_transparency img) as [[|]|e]; [| |discriminate].
    + destruct (image_save lib img _ (PNG true 9) w) as [wa [[]|e]] eqn:Hs;
        [|discriminate].
      cbn [andb]. intros [= <- <-]. now apply (Hsave _ _ _ _ _ Hs).
    + cbn [andb].
      match goal with
      | |- context [image_save lib ?i ?o ?fmt w] =>
          destruct (image_save lib i o fmt w) as [wa [[]|e]] eqn:Hs;
            [|discriminate]
      end.
      intros [= <- <-]. now apply (Hsave _ _ _ _ _ Hs).
  - destruct (Path.str_in (Path.lower ext0) [".jpg"; ".jpeg"]); cbn [andb].
    + match goal with
      | |- context [image_save lib ?i ?o ?fmt w] =>
          destruct (image_save lib i o fmt w) as [wa [[]|e]] eqn:Hs;
            [|discriminate]
      end.
      intros [= <- <-]. now apply (Hsave _ _ _ _ _ Hs).
    + intros [= <- <-]. reflexivity.
Qed.

(** When the Transcoder does not write over the source, the output of the
    pipeline is no larger than the source as it was, and the source is
    untouched. *)
Lemma process_file_bound (lib : Lib) (dst_dir : string) (quality : Z)
    (path : string) (w w' : World) (out' : string) :
  snd (transcode lib dst_dir quality path w) <> Returned path ->
  process_file lib dst_dir quality path w = (w', Returned out') ->
  exists fsrc f',
    fs w !! path = Some fsrc
    /\ fs w' !! path = Some fsrc
    /\ fs w' !! out' = Some f'
    /\ (List.length (content f') <= List.length (content fsrc))%nat.
Proof.
  intros Hnip Hrun. unfold process_file, bind in Hrun.
  destruct (transcode lib dst_dir quality path w) as [w1 [out|e]] eqn:Ht;
    [|discriminate].
  cbn [snd] in Hnip.
  assert (Hne : path <> out) by congruence.
  destruct (guard_bound _ _ _ _ _ _ Hrun) as (fsrc & f' & H1 & H2 & H3 & H4 & _).
  exists fsrc, f'. repeat split; auto.
  rewrite <- (transcode_frame _ _ _ _ _ _ _ Ht path Hne). exact H1.
Qed.

(** ** The batch: progress calls *)

Section Batch.

Context (lib : Lib).

Lemma process_file_calls (dst_dir : string) (quality : Z) (path : string)
    (w : World) :
  calls (fst (process_file lib dst_dir quality path w)) = calls w.
Proof. apply (preserves_process_file lib calls); reflexivity. Qed.

Lemma call_returns (cb : option Callback) (delta total : Z) (step : option bool)
    (w : World) :
  exists w1, call cb delta total step w = (w1, Returned tt).
Proof. destruct cb; eexists; reflexivity. Qed.

Lemma call_recording (delta total : Z) (step : option bool) (w : World) :
  call (Some recording_cb) delta total step w
  = (log_call (delta, total, step) w, Returned tt).
Proof. reflexivity. Qed.

(** The loop calls the callback once after each file that went through, and
    goes through all of them when it returns. *)
Lemma for_files_calls (dst_dir : string) (quality total : Z)
    (files out_paths : list string) (w w' : World) (r : Res (list string)) :
  for_files lib dst_dir quality (Some recording_cb) total files out_paths w
  = (w', r) ->
  match r with
  | Returned outs =>
      calls w' = (calls w ++ repeat (1, total, Some true) (List.length files))%list
      /\ List.length outs = (List.length out_paths + List.length files)%nat
  | Raised _ =>
      exists k, (k < List.length files)%nat
        /\ calls w' = (calls w ++ repeat (1, total, Some true) k)%list
  end.
Proof.
  revert out_paths w. induction files as [|path rest IH]; intros out_paths w.
  - intros [= <- <-]. cbn. rewrite app_nil_r. split; [reflexivity | lia].
  - cbn [for_files]. unfold bind at 1.
    pose proof (process_file_calls dst_dir quality path w) as Hc.
    destruct (process_file lib dst_dir quality path w) as [w1 [out|e]];
      cbn [fst] in Hc.
    + unfold bind at 1. rewrite call_recording.
      intros Hrun. apply IH in Hrun. destruct r as [outs|e].
      * destruct Hrun as [IH1 IH2]. split.
        -- rewrite IH1. cbn [calls log_call].
           rewrite Hc, <- app_assoc. reflexivity.
        -- rewrite IH2, length_app. cbn. lia.
      * destruct Hrun as (k & Hk & IH1). exists (S k). split; [cbn; lia|].
        rewrite IH1. cbn [calls log_call].
        rewrite Hc, <- app_assoc. reflexivity.
    + intros [= <- <-]. exists 0%nat. split; [cbn; lia|].
      cbn. now rewrite app_nil_r.
Qed.

Lemma firstn_repeat_le {A} (x : A) (k n : nat) :
  (k <= n)%nat -> firstn k (repeat x n) = repeat x k.
Proof.
  revert n. induction k as [|k IH]; intros [|n] Hk; try reflexivity; [lia|].
  cbn [firstn repeat]. f_equal. apply IH. lia.
Qed.

Lemma cumulative_repeat (total : Z) (k : nat) :
  cumulative (repeat (1, total, Some true) k) = Z.of_nat k.
Proof.
  induction k as [|k IH]; [reflexivity|].
  cbn [repeat cumulative fold_right fst]. fold (cumulative (repeat (1, total, Some true) k)).
  rewrite IH. lia.
Qed.

(** C8.  A batch that returns has called the progress callback once with
    [(0, total)] before the first file and once with [(1, total)] after each
    file, [total] being the number of eligible files: that many calls plus
    one, the deltas adding up to one more after each file and to the number
    of files in the end. *)
Theorem progress_called_once_per_file (src_dir dst_dir : string) (quality : Z)
    (w w' : World) (count src_bytes dst_bytes : Z) :
  compress_dir_with_progress lib src_dir dst_dir quality (Some recording_cb) w
  = (w', Returned (count, src_bytes, dst_bytes)) ->
  exists names new,
    listdir w src_dir = Some names
    /\ count = Z.of_nat (List.length (iter_images_of w src_dir names))
    /\ calls w' = (calls w ++ new)%list
    /\ new = (0, count, None)
             :: repeat (1, count, Some true)
                  (List.length (iter_images_of w src_dir names))
    /\ Z.of_nat (List.length new) = count + 1
    /\ (forall k, (k <= List.length (iter_images_of w src_dir names))%nat ->
          cumulative (firstn (S k) new) = Z.of_nat k)
    /\ cumulative new = count.
Proof.
  unfold compress_dir_with_progress. unfold bind at 1. unfold os_makedirs.
  destruct (isfile w dst_dir); [discriminate|].
  unfold bind at 1. unfold iter_images.
  destruct (listdir w src_dir) as [names|]; [|discriminate].
  set (files := iter_images_of w src_dir names).
  set (total := Z.of_nat (List.length files)).
  unfold bind at 1. rewrite call_recording.
  unfold bind at 1.
  destruct (for_files lib dst_dir quality (Some recording_cb) total files []
              (log_call (0, total, None) w)) as [w1 [outs|e]] eqn:Hloop;
    [|discriminate].
  apply for_files_calls in Hloop. destruct Hloop as [Hcalls _].
  unfold bind at 1.
  pose proof (preserves_sum_getsize calls files w1) as Hs1.
  destruct (sum_getsize files w1) as [w2 [sb|e]]; cbn [fst] in Hs1; [|discriminate].
  unfold bind at 1.
  pose proof (preserves_sum_getsize calls outs w2) as Hs2.
  destruct (sum_getsize outs w2) as [w3 [db|e]]; cbn [fst] in Hs2; [|discriminate].
  intros [= <- <- <- <-].
  exists names, ((0, total, None) :: repeat (1, total, Some true) (List.length files)).
  split; [reflexivity|]. split; [reflexivity|].
  split.
  { rewrite Hs2, Hs1, Hcalls. cbn [calls log_call]. now rewrite <- app_assoc. }
  split; [reflexivity|].
  split.
  { cbn [List.length]. rewrite repeat_length. unfold total. lia. }
  split.
  { intros k Hk. cbn [firstn cumulative fold_right fst].
    fold (cumulative (firstn k (repeat (1, total, Some true) (List.length files)))).
    rewrite firstn_repeat_le by exact Hk. rewrite cumulative_repeat. lia. }
  cbn [cumulative fold_right fst].
  fold (cumulative (repeat (1, total, Some true) (List.length files))).
  rewrite cumulative_repeat. unfold total. lia.
Qed.

(** With the callback of the GUI, the progress value goes up by one after
    each file and ends at the number of files. *)
Lemma for_files_progress_var (dst_dir : string) (quality total : Z)
    (files out_paths outs : list string) (w w' : World) :
  for_files lib dst_dir quality (Some progress_cb) total files out_paths w
  = (w', Returned outs) ->
  0 <= progress_var w ->
  progress_var w + Z.of_nat (List.length files) <= total ->
  progress_var w' = progress_var w + Z.of_nat (List.length files).
Proof.
  revert out_paths w. induction files as [|path rest IH]; intros out_paths w.
  - intros [= <- _] _ _. cbn. lia.
  - cbn [for_files]. unfold bind at 1.
    pose proof (preserves_process_file lib progress_var
                  (fun _ _ => eq_refl) (fun _ _ _ _ => eq_refl)
                  dst_dir quality path w) as Hp.
    destruct (process_file lib dst_dir quality path w) as [w1 [out|e]];
      cbn [fst] in Hp; [|discriminate].
    unfold bind at 1. cbn [call modify].
    intros Hrun Hpos Hle. cbn [List.length] in Hle.
    assert (Htot : (total =? 0) = false) by (apply Z.eqb_neq; lia).
    assert (Hstep : progress_var (progress_cb 1 total (Some true) w1)
                    = progress_var w + 1).
    { unfold progress_cb. rewrite Htot. cbn [progress_var set_progress_var log_call].
      rewrite Hp. lia. }
    apply IH in Hrun; [|rewrite Hstep; lia..].
    rewrite Hrun, Hstep. cbn [List.length]. lia.
Qed.

Lemma gui_progress_ends_at_count (src_dir dst_dir : string) (quality : Z)
    (w w' : World) (count src_bytes dst_bytes : Z) :
  compress_dir_with_progress lib src_dir dst_dir quality (Some progress_cb) w
  = (w', Returned (count, src_bytes, dst_bytes)) ->
  progress_var w' = count.
Proof.
  unfold compress_dir_with_progress. unfold bind at 1. unfold os_makedirs.
  destruct (isfile w dst_dir); [discriminate|].
  unfold bind at 1. unfold iter_images.
  destruct (listdir w src_dir) as [names|]; [|discriminate].
  set (files := iter_images_of w src_dir names).
  set (total := Z.of_nat (List.length files)).
  unfold bind at 1. cbn [call modify].
  assert (H0 : progress_var (progress_cb 0 total None w) = 0).
  { unfold progress_cb. now destruct (total =? 0). }
  unfold bind at 1.
  destruct (for_files lib dst_dir quality (Some progress_cb) total files []
              (progress_cb 0 total None w)) as [w1 [outs|e]] eqn:Hloop;
    [|discriminate].
  apply for_files_progress_var in Hloop; [|rewrite H0; unfold total; lia..].
  unfold bind at 1.
  pose proof (preserves_sum_getsize progress_var files w1) as Hs1.
  destruct (sum_getsize files w1) as [w2 [sb|e]]; cbn [fst] in Hs1; [|discriminate].
  unfold bind at 1.
  pose proof (preserves_sum_getsize progress_var outs w2) as Hs2.
  destruct (sum_getsize outs w2) as [w3 [db|e]]; cbn [fst] in Hs2; [|discriminate].
  intros [= <- <- <- <-]. rewrite Hs2, Hs1, Hloop, H0. unfold total. lia.
Qed.

End Batch.

(** ** The batch: a file that cannot be decoded *)

Section Failure.

Context (lib : Lib).

Lemma for_files_app (dst_dir : string) (quality : Z) (cb : option Callback)
    (total : Z) (pre rest out_paths : list string) (w : World) :
  for_files lib dst_dir quality cb total (pre ++ rest) out_paths w =
  match for_files lib dst_dir quality cb total pre out_paths w with
  | (w1, Returned outs) => for_files lib dst_dir quality cb total rest outs w1
  | (w1, Raised e) => (w1, Raised e)
  end.
Proof.
  revert out_paths w. induction pre as [|p pre IH]; intros out_paths w.
  - reflexivity.
  - cbn [app for_files]. unfold bind.
    destruct (process_file lib dst_dir quality p w) as [w1 [out|e]];
      [|reflexivity].
    destruct (call cb 1 total (Some true) w1) as [w2 [[]|e]]; [|reflexivity].
    apply IH.
Qed.

Lemma process_file_undecodable (dst_dir : string) (quality : Z) (path : string)
    (w : World) (f : File) :
  fs w !! path = Some f ->
  decode lib (content f) = None ->
  process_file lib dst_dir quality path w = (w, Raised UnidentifiedImageError).
Proof.
  intros Hf Hd. unfold process_file, transcode.
  destruct (Path.splitext _) as [base ext0].
  unfold bind, image_open. now rewrite Hf, Hd.
Qed.

(** C3, as the program has it.  A file that cannot be decoded raises out of
    the batch when the loop reaches it: the world is the one left by the
    files before it, so neither this file nor any file after it is
    processed, and no summary is returned. *)
Theorem undecodable_file_aborts_batch (src_dir dst_dir : string) (quality : Z)
    (cb : option Callback) (w w1 : World) (names pre post : list string)
    (path : string) (outs : list string) (f : File) :
  isfile w dst_dir = false ->
  listdir w src_dir = Some names ->
  iter_images_of w src_dir names = (pre ++ path :: post)%list ->
  for_files lib dst_dir quality cb (Z.of_nat (List.length (pre ++ path :: post)))
    pre [] (fst (call cb 0 (Z.of_nat (List.length (pre ++ path :: post))) None w))
  = (w1, Returned outs) ->
  fs w1 !! path = Some f ->
  decode lib (content f) = None ->
  compress_dir_with_progress lib src_dir dst_dir quality cb w
  = (w1, Raised UnidentifiedImageError).
Proof.
  intros Hdst Hls Hfiles Hpre Hf Hd.
  unfold compress_dir_with_progress. unfold bind at 1. unfold os_makedirs.
  rewrite Hdst. unfold bind at 1. unfold iter_images. rewrite Hls, Hfiles.
  unfold bind at 1.
  destruct (call_returns cb 0 (Z.of_nat (List.length (pre ++ path :: post))) None w)
    as [w0 Hcall].
  rewrite Hcall in *. cbn [fst] in Hpre.
  unfold bind at 1. rewrite for_files_app, Hpre.
  cbn [for_files]. unfold bind at 1.
  now rewrite (process_file_undecodable dst_dir quality path w1 f Hf Hd).
Qed.

(** The GUI worker then reports the whole batch as failed. *)
Lemma run_worker_reports_failure (src dst : string) (quality : Z) (w w1 : World)
    (e : exn) :
  compress_dir_with_progress lib src dst quality (Some progress_cb) w
  = (w1, Raised e) ->
  run_worker lib src dst quality w
  = (set_ui_enabled true (log_dialog (ErrorFailed e) w1), Returned tt).
Proof.
  intros H. unfold run_worker, bind, attempt. rewrite H. reflexivity.
Qed.

End Failure.

(** ** The quality *)

Section Quality.

Context (lib : Lib).

Variables (src_var dst_var quality_var : string) (quality : Z) (w : World).

Hypothesis Hsrc : Path.strip src_var <> EmptyString.
Hypothesis Hdir : isdir w (Path.strip src_var) = true.
Hypothesis Hdst : Path.strip dst_var <> EmptyString.
Hypothesis Hint : py_int lib quality_var = Some quality.

(** The start button of the GUI refuses a quality outside 1..95 before the
    worker is started: a message box, and nothing else happens. *)
Lemma run_rejects_quality :
  quality < 1 \/ 95 < quality ->
  run lib src_var dst_var quality_var w
  = (log_dialog ErrorQualityRange w, Returned tt).
Proof.
  intros Hq. unfold run.
  apply String.eqb_neq in Hsrc, Hdst. rewrite Hsrc, Hdir, Hdst, Hint.
  cbn [negb orb].
  assert (H : (quality <? 1) || (95 <? quality) = true).
  { apply orb_true_iff. destruct Hq; [left|right]; now apply Z.ltb_lt. }
  now rewrite H.
Qed.

(** It starts the worker for a quality within 1..95. *)
Lemma run_accepts_quality :
  1 <= quality <= 95 ->
  run lib src_var dst_var quality_var w
  = (modify (set_progress_var 0) ;;
     modify (set_ui_enabled false) ;;
     run_worker lib (Path.strip src_var) (Path.strip dst_var) quality) w.
Proof.
  intros Hq. unfold run.
  apply String.eqb_neq in Hsrc, Hdst. rewrite Hsrc, Hdir, Hdst, Hint.
  cbn [negb orb].
  assert (H : (quality <? 1) || (95 <? quality) = false).
  { apply orb_false_iff. split; apply Z.ltb_ge; lia. }
  now rewrite H.
Qed.

End Quality.

(** The command line hands the quality to the batch as it is, and the batch
    to the encoder: for a JPEG source the encoder is called with it,
    whatever it is. *)
Lemma run_cli_is_compress_dir (lib : Lib) (src dst : string) (quality : Z)
    (w : World) :
  run_cli lib src dst quality w =
  (r <- compress_dir_with_progress lib src dst quality None ;;
   let '(count, src_bytes, dst_bytes) := r in
   modify (log_dialog (Printed count src_bytes dst_bytes))) w.
Proof. reflexivity. Qed.

(** ** The program on concrete folders *)

Lemma in_place_keeps_artifact (lib : Lib) (dir : string) (quality : Z)
    (path base ext0 : string) (w : World) (f : File) (img : Image) (b : bytes) :
  Path.splitext (Path.basename path) = (base, ext0) ->
  Path.str_in (Path.lower ext0) [".jpg"; ".jpeg"] = true ->
  Path.join dir (Path.basename path) = path ->
  fs w !! path = Some f ->
  decode lib (content f) = Some img ->
  encode lib (jpeg_ready lib img)
    (JPEG quality true true (dict_get "exif" (info img))
       (dict_get "icc_profile" (info img))) = Some b ->
  exists w',
    process_file lib dir quality path w = (w', Returned path)
    /\ fs w' !! path = Some {| content := b; mtime := clock w |}.
Proof.
  intros Hsplit Hext Hjoin Hf Hd He. eexists. unfold process_file, bind.
  rewrite (transcode_jpeg lib dir quality path base ext0 w f img Hsplit Hf Hd Hext).
  unfold bind. rewrite (image_save_ok lib _ _ _ b _ He). unfold ret.
  rewrite Hjoin.
  match goal with
  | |- context [guard dir path path ?w1] =>
      assert (H1 : fs w1 !! path = Some {| content := b; mtime := clock w |})
        by (rewrite fs_log_save, fs_set_fs; apply lookup_insert_eq);
      rewrite (guard_keeps dir path path w1 _ _ H1 H1 (Nat.le_refl _))
  end.
  split; [reflexivity|].
  rewrite fs_log_save, fs_set_fs. apply lookup_insert_eq.
Qed.

(** C1, where the code departs from it.  Compressing the folder [d] onto
    itself at quality 95: the source [d/a.jpg] has 2 bytes, the pipeline
    returns [d/a.jpg] with the 96 bytes of the artifact in it, which are
    not the bytes of the source; the summary of the batch gives 96 bytes
    for the source as well. *)
Theorem in_place_output_exceeds_source :
  size_at Demo.w_in_place "d/a.jpg" = Some 2
  /\ snd (process_file Toy.lib "d" 95 "d/a.jpg" Demo.w_in_place)
     = Returned "d/a.jpg"
  /\ size_at (fst (process_file Toy.lib "d" 95 "d/a.jpg" Demo.w_in_place)) "d/a.jpg"
     = Some 96
  /\ Toy.read (fst (process_file Toy.lib "d" 95 "d/a.jpg" Demo.w_in_place)) "d/a.jpg"
     <> Toy.read Demo.w_in_place "d/a.jpg"
  /\ snd (compress_dir Toy.lib "d" "d" 95 Demo.w_in_place) = Returned (1, 96, 96).
Proof.
  repeat split; try (vm_compute; reflexivity).
  vm_compute. discriminate.
Qed.

(** C2, where the code departs from it.  From the command line the
    qualities 0, 96 and -1 are not refused: the batch runs, the encoder is
    called with the quality as given, and the summary is printed. *)
Theorem cli_runs_with_quality_out_of_range :
  Forall (fun quality =>
            snd (run_cli Toy.lib "in" "out" quality Demo.w_cli) = Returned tt
            /\ saves (fst (run_cli Toy.lib "in" "out" quality Demo.w_cli))
               = [("out/a.jpg",
                   {| mode := "RGB"; bands := [("R", (16, [32; 48]))]; info := [] |},
                   JPEG quality true true None None)]
            /\ isfile (fst (run_cli Toy.lib "in" "out" quality Demo.w_cli))
                 "out/a.jpg" = true
            /\ exists s d,
                 dialogs (fst (run_cli Toy.lib "in" "out" quality Demo.w_cli))
                 = [Printed 1 s d])
         [0; 96; -1].
Proof.
  repeat constructor; try (vm_compute; reflexivity);
    eexists; eexists; vm_compute; reflexivity.
Qed.

(** The same qualities typed into the GUI are refused. *)
Example gui_refuses_quality_out_of_range :
  Forall (fun text =>
            run Toy.lib "in" "out" text Demo.w_cli
            = (log_dialog ErrorQualityRange Demo.w_cli, Returned tt))
         ["0"; "96"; "-1"].
Proof. repeat constructor. Qed.

Example gui_accepts_quality_1_and_95 :
  Forall (fun text =>
            exists s d,
              dialogs (fst (run Toy.lib "in" "out" text Demo.w_cli))
              = [InfoDone 1 s d])
         ["1"; "95"].
Proof. repeat constructor; eexists; eexists; vm_compute; reflexivity. Qed.

(** An entry of white space only is no source folder; white space around
    the name of one is dropped before the name is used. *)
Example gui_strips_the_entries :
  run Toy.lib (String (ascii_of_nat 28) " ") "out" "80" Demo.w_cli
  = (log_dialog ErrorBadSource Demo.w_cli, Returned tt)
  /\ run Toy.lib " in" (String (ascii_of_nat 31) EmptyString) "80" Demo.w_cli
     = (log_dialog ErrorNoDestination Demo.w_cli, Returned tt)
  /\ dialogs (fst (run Toy.lib (" in" +:+ String (ascii_of_nat 29) EmptyString)
                     "out " "2" Demo.w_cli))
     = [InfoDone 1 4 3].
Proof. repeat split; vm_compute; reflexivity. Qed.

(** C3 as stated fails: the second of three files cannot be decoded, the
    batch raises, returns no summary, and the third file, which is a good
    JPEG, has no output; the callback was called for the first file only. *)
Lemma bad_file_aborts_batch :
  let r := compress_dir_with_progress Toy.lib "in" "out" 2 (Some recording_cb)
             Demo.w_bad in
  snd r = Raised UnidentifiedImageError
  /\ (forall summary, snd r <> Returned summary)
  /\ isfile (fst r) "out/a.jpg" = true
  /\ isfile (fst r) "out/c.jpg" = false
  /\ Toy.toy_decode Demo.photo <> None
  /\ calls (fst r) = [(0, 3, None); (1, 3, Some true)].
Proof.
  cbv zeta. repeat split; try (vm_compute; reflexivity);
    try (intros; vm_compute; discriminate).
Qed.

(** ** The theorems at work *)

(** The opaque RGBA PNG [in/c.png] is encoded as [out/c.jpg], in mode RGB. *)
Lemma png_without_transparency_to_jpeg_witness :
  mode (jpeg_ready Toy.lib Demo.opaque_img) = "RGB"
  /\ snd (transcode Toy.lib "out" 2 "in/c.png" Demo.w_batch) = Returned "out/c.jpg".
Proof.
  pose proof (png_without_transparency_to_jpeg Toy.lib "out" 2 "in/c.png" "c" ".png"
                Demo.w_batch (Demo.file_of Demo.opaque) Demo.opaque_img
                eq_refl eq_refl eq_refl eq_refl eq_refl) as H.
  cbv zeta in H. destruct H as (Hmode & _ & _ & _ & Hrun).
  split; [exact Hmode|].
  exact (proj1 (Hrun [Byte.x01; Byte.x80; Byte.x80] eq_refl)).
Defined.


(** A regressed [out/c.jpg] is removed and [in/c.png] copied as
    [out/c.png], with its modification time. *)
Lemma guard_fallback_witness :
  fs (fst (guard "out" "in/c.png" "out/c.jpg" (Demo.w_regressed Demo.no_deny)))
    !! "out/c.png" = Some (Demo.file_of Demo.opaque)
  /\ fs (fst (guard "out" "in/c.png" "out/c.jpg" (Demo.w_regressed Demo.no_deny)))
       !! "out/c.jpg" = None
  /\ snd (guard "out" "in/c.png" "out/c.jpg" (Demo.w_regressed Demo.no_deny))
     = Returned "out/c.png".
Proof.
  pose proof (guard_fallback "out" "in/c.png" "out/c.jpg"
                (Demo.w_regressed Demo.no_deny) (Demo.file_of Demo.opaque)
                (Demo.file_of [Byte.x01; Byte.x80; Byte.x80; Byte.x80; Byte.x80])
                eq_refl eq_refl) as H.
  cbv zeta in H. destruct H as (H1 & H2 & H3 & _).
  - simpl. lia.
  - split; [exact H1|]. split.
    + apply H2. discriminate.
    + apply H3. discriminate.
Defined.

(** The batch over [in] has three eligible files and calls the callback
    four times. *)
Lemma progress_called_once_per_file_witness :
  calls (fst (compress_dir_with_progress Toy.lib "in" "out" 2 (Some recording_cb)
                Demo.w_batch))
  = [(0, 3, None); (1, 3, Some true); (1, 3, Some true); (1, 3, Some true)].
Proof.
  assert (Hrun : compress_dir_with_progress Toy.lib "in" "out" 2
                   (Some recording_cb) Demo.w_batch
                 = (fst (compress_dir_with_progress Toy.lib "in" "out" 2
                           (Some recording_cb) Demo.w_batch),
                    Returned (3, 10, 9)))
    by (vm_compute; reflexivity).
  destruct (progress_called_once_per_file Toy.lib "in" "out" 2 Demo.w_batch _
              3 10 9 Hrun)
    as (names & new & Hls & _ & Hcalls & Hnew & _).
  injection Hls as <-. rewrite Hcalls, Hnew. reflexivity.
Defined.



(** [in/b.PNG] comes out the same at the qualities 1 and 95. *)
Lemma transparent_png_ignores_quality_witness :
  process_file Toy.lib "out" 1 "in/b.PNG" Demo.w_batch
  = process_file Toy.lib "out" 95 "in/b.PNG" Demo.w_batch.
Proof.
  exact (transparent_png_ignores_quality Toy.lib "out" 1 95 "in/b.PNG" "b" ".PNG"
           Demo.w_batch (Demo.file_of Demo.cutout) Demo.cutout_img
           eq_refl eq_refl eq_refl eq_refl eq_refl).
Defined.

(** In [Demo.w_bad] the loop stops at [in/b.jpg], after [in/a.jpg]. *)
Lemma undecodable_file_aborts_batch_witness :
  snd (compress_dir_with_progress Toy.lib "in" "out" 2 (Some recording_cb)
         Demo.w_bad) = Raised UnidentifiedImageError.
Proof.
  rewrite (undecodable_file_aborts_batch Toy.lib "in" "out" 2 (Some recording_cb)
             Demo.w_bad
             (fst (for_files Toy.lib "out" 2 (Some recording_cb) 3 ["in/a.jpg"] []
                     (log_call (0, 3, None) Demo.w_bad)))
             ["a.jpg"; "b.jpg"; "c.jpg"] ["in/a.jpg"] ["in/c.jpg"] "in/b.jpg"
             ["out/a.jpg"] (Demo.file_of Demo.garbage));
    try reflexivity; vm_compute; reflexivity.
Defined.

(** ** The eligible files *)

(** X1.  [iter_images] yields exactly the paths [src_dir/name] of the listed
    names that are regular files and whose extension, lowercased, is [.jpg],
    [.jpeg] or [.png]; it yields them in the order of the listing. *)
Theorem iter_images_selects (w : World) (src_dir : string) (names : list string) :
  (forall path,
     In path (iter_images_of w src_dir names) <->
     exists name,
       In name names /\ path = Path.join src_dir name
       /\ isfile w path = true
       /\ Path.str_in (Path.lower (snd (Path.splitext name)))
            [".jpg"; ".jpeg"; ".png"] = true)
  /\ sublist (iter_images_of w src_dir names) (map (Path.join src_dir) names).
Proof.
  split.
  - intros path. induction names as [|name rest IH]; cbn [iter_images_of].
    + split; [intros [] | intros (n & [] & _)].
    + destruct (isfile w (Path.join src_dir name)) eqn:Hf; cbn [negb].
      * destruct (Path.str_in _ _) eqn:He.
        -- split.
           ++ intros [<- | Hin].
              ** exists name. repeat split; auto. now left.
              ** apply IH in Hin. destruct Hin as (n & Hn & Hrest).
                 exists n. split; [now right | exact Hrest].
           ++ intros (n & [<- | Hn] & Hp & Hrest).
              ** left. now symmetry.
              ** right. apply IH. exists n. auto.
        -- rewrite IH. split.
           ++ intros (n & Hn & Hrest). exists n. split; [now right | exact Hrest].
           ++ intros (n & [<- | Hn] & Hp & Hfile & Hext).
              ** rewrite He in Hext. discriminate.
              ** exists n. auto.
      * rewrite IH. split.
        -- intros (n & Hn & Hrest). exists n. split; [now right | exact Hrest].
        -- intros (n & [<- | Hn] & Hp & Hfile & Hext).
           ++ subst path. rewrite Hf in Hfile. discriminate.
           ++ exists n. auto.
  - induction names as [|name rest IH]; cbn [iter_images_of map].
    + constructor.
    + destruct (negb _); [now apply sublist_cons|].
      destruct (Path.str_in _ _); [now apply sublist_skip | now apply sublist_cons].
Qed.

(** ** What the batch writes, and how much *)

Section Footprint.

Context (lib : Lib).

Lemma transcode_out (dst_dir : string) (quality : Z) (path : string)
    (w w1 : World) (out : string) :
  transcode lib dst_dir quality path w = (w1, Returned out) ->
  In out (outputs_of dst_dir path).
Proof.
  unfold transcode, outputs_of.
  destruct (Path.splitext (Path.basename path)) as [base ext0]. cbn [fst].
  unfold bind, image_open, lift, ret.
  destruct (fs w !! path) as [f|]; [|discriminate].
  destruct (decode lib (content f)) as [img|]; [|discriminate].
  destruct (String.eqb (Path.lower ext0) ".png").
  - destruct (has_transparency img) as [[|]|e]; [| |discriminate].
    + destruct (image_save lib img _ (PNG true 9) w) as [wa [[]|e]];
        [|discriminate].
      cbn [andb]. intros [= _ <-]. right; now left.
    + cbn [andb].
      match goal with
      | |- context [image_save lib ?i ?o ?fmt w] =>
          destruct (image_save lib i o fmt w) as [wa [[]|e]]; [|discriminate]
      end.
      intros [= _ <-]. right; right; now left.
  - destruct (Path.str_in (Path.lower ext0) [".jpg"; ".jpeg"]); cbn [andb].
    + match goal with
      | |- context [image_save lib ?i ?o ?fmt w] =>
          destruct (image_save lib i o fmt w) as [wa [[]|e]]; [|discriminate]
      end.
      intros [= _ <-]. now left.
    + intros [= _ <-]. now left.
Qed.

(** A Transcoder that raises has changed nothing. *)
Lemma transcode_raised (dst_dir : string) (quality : Z) (path : string)
    (w w1 : World) (e : exn) :
  transcode lib dst_dir quality path w = (w1, Raised e) -> w1 = w.
Proof.
  unfold transcode.
  destruct (Path.splitext (Path.basename path)) as [base ext0].
  unfold bind, image_open, lift, ret.
  destruct (fs w !! path) as [f|]; [|now intros [= <- _]].
  destruct (decode lib (content f)) as [img|]; [|now intros [= <- _]].
  assert (Hsave : forall i o fmt wa ea,
            image_save lib i o fmt w = (wa, Raised ea) -> wa = w).
  { intros i o fmt wa ea. unfold image_save.
    destruct (encode lib i fmt); [discriminate | now intros [= <- _]]. }
  destruct (String.eqb (Path.lower ext0) ".png").
  - destruct (has_transparency img) as [[|]|e']; [| |now intros [= <- _]].
    + destruct (image_save lib img _ (PNG true 9) w) as [wa [[]|e']] eqn:Hs.
      * cbn [andb]. discriminate.
      * intros [= <- _]. now apply Hsave in Hs.
    + cbn [andb].
      match goal with
      | |- context [image_save lib ?i ?o ?fmt w] =>
          destruct (image_save lib i o fmt w) as [wa [[]|e']] eqn:Hs
      end.
      * discriminate.
      * intros [= <- _]. now apply Hsave in Hs.
  - destruct (Path.str_in (Path.lower ext0) [".jpg"; ".jpeg"]); cbn [andb].
    + match goal with
      | |- context [image_save lib ?i ?o ?fmt w] =>
          destruct (image_save lib i o fmt w) as [wa [[]|e']] eqn:Hs
      end.
      * discriminate.
      * intros [= <- _]. now apply Hsave in Hs.
    + discriminate.
Qed.

(** Whatever its outcome, the Guard changes no file but the artifact and
    the file under the source's name in the destination. *)
Lemma guard_frame (dst_dir path out_path : string) (w : World) (p : string) :
  p <> out_path ->
  p <> Path.join dst_dir (Path.basename path) ->
  fs (fst (guard dst_dir path out_path w)) !! p = fs w !! p.
Proof.
  intros Hp Hpt.
  destruct (fs w !! out_path) as [fout|] eqn:Hout.
  2:{ unfold guard, bind, getsize. now rewrite Hout. }
  destruct (fs w !! path) as [fsrc|] eqn:Hsrc.
  2:{ unfold guard, bind, getsize. now rewrite Hout, Hsrc. }
  destruct (le_lt_dec (List.length (content fout)) (List.length (content fsrc)))
    as [Hle|Hlt].
  { now rewrite (guard_keeps dst_dir path out_path w fsrc fout Hsrc Hout Hle). }
  destruct (decide (out_path = Path.join dst_dir (Path.basename path)))
    as [Hsame|Hren].
  - rewrite (guard_overwrites dst_dir path out_path w fsrc fout Hsrc Hout Hlt Hsame).
    cbn [fst]. rewrite fs_set_fs. now apply lookup_insert_ne.
  - rewrite (guard_renames dst_dir path out_path w fsrc fout Hsrc Hout Hlt Hren).
    assert (H1 : fs (if denied w out_path then w else set_fs (delete out_path) w)
                 !! p = fs w !! p).
    { destruct (denied w out_path); [reflexivity|].
      rewrite fs_set_fs. now apply lookup_delete_ne. }
    destruct (String.eqb path _); cbn [fst]; [exact H1|].
    rewrite fs_set_fs, lookup_insert_ne by congruence. exact H1.
Qed.

(** One file through the pipeline changes no file outside its three
    possible output paths, whether it returns or raises. *)
Lemma process_file_frame (dst_dir : string) (quality : Z) (path : string)
    (w : World) (p : string) :
  ~ In p (outputs_of dst_dir path) ->
  fs (fst (process_file lib dst_dir quality path w)) !! p = fs w !! p.
Proof.
  intros Hp. unfold process_file, bind.
  destruct (transcode lib dst_dir quality path w) as [w1 [out|e]] eqn:Ht.
  - pose proof (transcode_out _ _ _ _ _ _ Ht) as Hout.
    rewrite guard_frame.
    + apply (transcode_frame _ _ _ _ _ _ _ Ht). intros ->. contradiction.
    + intros ->. contradiction.
    + intros ->. apply Hp. now left.
  - apply transcode_raised in Ht. now subst w1.
Qed.

Lemma call_quiet (cb : option Callback) (delta total : Z) (step : option bool)
    (w : World) :
  quiet cb -> fs (fst (call cb delta total step w)) = fs w.
Proof.
  intros Hq. destruct cb as [f|]; [|reflexivity]. now apply Hq.
Qed.

Lemma for_files_frame (dst_dir : string) (quality : Z) (cb : option Callback)
    (total : Z) (files out_paths : list string) (w : World) (p : string) :
  quiet cb ->
  ~ In p (touched dst_dir files) ->
  fs (fst (for_files lib dst_dir quality cb total files out_paths w)) !! p
  = fs w !! p.
Proof.
  intros Hq. revert out_paths w.
  induction files as [|path rest IH]; intros out_paths w Hp; [reflexivity|].
  cbn [touched flat_map] in Hp. rewrite in_app_iff in Hp.
  cbn [for_files]. unfold bind at 1.
  pose proof (process_file_frame dst_dir quality path w p
                (fun H => Hp (or_introl H))) as Hstep.
  destruct (process_file lib dst_dir quality path w) as [w1 [out|e]];
    cbn [fst] in *; [|exact Hstep].
  unfold bind at 1.
  pose proof (call_quiet cb 1 total (Some true) w1 Hq) as Hc.
  destruct (call_returns cb 1 total (Some true) w1) as [w2 Hcall].
  rewrite Hcall in *. cbn [fst] in Hc.
  rewrite IH by (intros H; apply Hp; now right).
  now rewrite Hc.
Qed.

Lemma sum_getsize_spec (paths : list string) (w : World) :
  sum_getsize paths w =
  (w, match sum_sizes (fs w) paths with
      | Some s => Returned s
      | None => Raised FileNotFoundError
      end).
Proof.
  induction paths as [|p rest IH]; [reflexivity|].
  cbn [sum_getsize sum_sizes]. unfold bind at 1, getsize.
  destruct (fs w !! p) as [f|]; [|reflexivity].
  unfold bind at 1. rewrite IH.
  now destruct (sum_sizes (fs w) rest).
Qed.

Lemma sum_sizes_ext (m m' : gmap string File) (paths : list string) :
  (forall p, In p paths -> m' !! p = m !! p) ->
  sum_sizes m' paths = sum_sizes m paths.
Proof.
  induction paths as [|p rest IH]; intros H; [reflexivity|].
  cbn [sum_sizes]. rewrite (H p) by now left.
  rewrite IH; [reflexivity|]. intros q Hq. apply H. now right.
Qed.

End Footprint.

Section Totals.

Context (lib : Lib).

Lemma guard_returns (dst_dir path out_path : string) (w w' : World) (out' : string) :
  guard dst_dir path out_path w = (w', Returned out') ->
  out' = out_path \/ out' = Path.join dst_dir (Path.basename path).
Proof.
  unfold guard, bind, getsize.
  destruct (fs w !! out_path) as [fout|]; [|discriminate].
  destruct (fs w !! path) as [fsrc|]; [|discriminate].
  destruct (_ <? _); [|intros [= _ <-]; now left].
  destruct (negb _).
  - destruct (try_except_OSError (os_remove out_path) w) as [w1 [[]|e]];
      [|discriminate].
    unfold ret at 1.
    destruct (shutil_copy2 path _ w1) as [w2 [[]|e]]; [|discriminate].
    intros [= _ <-]. now right.
  - unfold ret at 1.
    destruct (shutil_copy2 path out_path w) as [w2 [[]|e]]; [|discriminate].
    intros [= _ <-]. now left.
Qed.

Lemma process_file_out (dst_dir : string) (quality : Z) (path : string)
    (w w' : World) (out' : string) :
  process_file lib dst_dir quality path w = (w', Returned out') ->
  In out' (outputs_of dst_dir path).
Proof.
  intros Hrun. unfold process_file, bind in Hrun.
  destruct (transcode lib dst_dir quality path w) as [w1 [out|e]] eqn:Ht;
    [|discriminate].
  destruct (guard_returns _ _ _ _ _ _ Hrun) as [-> | ->].
  - exact (transcode_out lib _ _ _ _ _ _ Ht).
  - now left.
Qed.

Lemma not_in_place (dst_dir : string) (quality : Z) (path : string) (w : World) :
  ~ In path (outputs_of dst_dir path) ->
  snd (transcode lib dst_dir quality path w) <> Returned path.
Proof.
  intros Hnot Heq.
  destruct (transcode lib dst_dir quality path w) as [w1 r] eqn:Ht.
  cbn [snd] in Heq. subst r. apply Hnot.
  exact (transcode_out lib _ _ _ _ _ _ Ht).
Qed.

(** X2.  A source that is not one of its own possible output paths comes
    out no larger: when the pipeline returns, the source file is as it was,
    the returned path is one of the three possible output paths, and the
    file there is either the source file itself, bytes and modification
    time, or the artifact of the Transcoder, no larger than the source. *)
Theorem output_no_larger_than_source (dst_dir : string) (quality : Z)
    (path : string) (w w' : World) (out' : string) :
  ~ In path (outputs_of dst_dir path) ->
  process_file lib dst_dir quality path w = (w', Returned out') ->
  exists fsrc f',
    fs w !! path = Some fsrc
    /\ fs w' !! path = Some fsrc
    /\ In out' (outputs_of dst_dir path)
    /\ fs w' !! out' = Some f'
    /\ (List.length (content f') <= List.length (content fsrc))%nat
    /\ (f' = fsrc
        \/ fs (fst (transcode lib dst_dir quality path w)) !! out' = Some f').
Proof.
  intros Hnot Hrun. unfold process_file, bind in Hrun.
  destruct (transcode lib dst_dir quality path w) as [w1 [out|e]] eqn:Ht;
    [|discriminate].
  pose proof (transcode_out lib _ _ _ _ _ _ Ht) as Hout.
  assert (Hne : path <> out) by (intros ->; contradiction).
  destruct (guard_bound _ _ _ _ _ _ Hrun) as (fsrc & f' & H1 & H2 & H3 & H4 & H5).
  exists fsrc, f'.
  split. { rewrite <- (transcode_frame lib _ _ _ _ _ _ Ht path Hne). exact H1. }
  split; [exact H2|].
  split.
  { destruct (guard_returns _ _ _ _ _ _ Hrun) as [-> | ->];
      [exact Hout | now left]. }
  split; [exact H3|]. split; [exact H4|].
  cbn [fst].
  destruct (fs w1 !! out) as [fout|] eqn:Ho.
  2:{ unfold guard, bind, getsize in Hrun. rewrite Ho in Hrun. discriminate. }
  destruct (le_lt_dec (List.length (content fout)) (List.length (content fsrc)))
    as [Hle|Hlt].
  - rewrite (guard_keeps dst_dir path out w1 fsrc fout H1 Ho Hle) in Hrun.
    injection Hrun as <- <-. right. now rewrite <- H3.
  - left. now apply (H5 fout).
Qed.

(** X3.  The Guard settles in one pass: run again on the path it returned,
    in the world it left, it changes nothing and returns the same path. *)
Theorem guard_idempotent (dst_dir path out_path : string) (w w' : World)
    (out' : string) :
  guard dst_dir path out_path w = (w', Returned out') ->
  guard dst_dir path out' w' = (w', Returned out').
Proof.
  intros Hrun.
  destruct (guard_bound _ _ _ _ _ _ Hrun) as (fsrc & f' & _ & H2 & H3 & H4 & _).
  exact (guard_keeps dst_dir path out' w' fsrc f' H2 H3 H4).
Qed.

(** The loop, when no two files share an output path and no source is an
    output path: the outputs add up to no more than the sources. *)
Lemma for_files_total (dst_dir : string) (quality : Z) (cb : option Callback)
    (total : Z) (files outs0 outs : list string) (w w' : World) :
  quiet cb ->
  separate dst_dir files ->
  (forall p, In p files -> ~ In p (touched dst_dir files)) ->
  for_files lib dst_dir quality cb total files outs0 w = (w', Returned outs) ->
  exists new d s,
    outs = (outs0 ++ new)%list
    /\ sum_sizes (fs w') new = Some d
    /\ sum_sizes (fs w) files = Some s
    /\ d <= s.
Proof.
  intros Hq. revert outs0 w.
  induction files as [|path rest IH]; intros outs0 w Hsep Hsrc.
  - intros [= <- <-]. exists [], 0, 0. rewrite app_nil_r. repeat split. lia.
  - cbn [for_files]. unfold bind at 1.
    destruct Hsep as [Hsep1 Hsep2].
    assert (Hsrc_rest : forall p, In p rest -> ~ In p (touched dst_dir rest)).
    { intros p Hp Hin. apply (Hsrc p (or_intror Hp)).
      cbn [touched flat_map]. apply in_app_iff. now right. }
    assert (Hpath : ~ In path (outputs_of dst_dir path)).
    { intros Hin. apply (Hsrc path (or_introl eq_refl)).
      cbn [touched flat_map]. apply in_app_iff. now left. }
    assert (Hrest_step : forall p, In p rest -> ~ In p (outputs_of dst_dir path)).
    { intros p Hp Hin. apply (Hsrc p (or_intror Hp)).
      cbn [touched flat_map]. apply in_app_iff. now left. }
    destruct (process_file lib dst_dir quality path w) as [w1 [out|e]] eqn:Hstep;
      [|discriminate].
    pose proof (process_file_out _ _ _ _ _ _ Hstep) as H3.
    destruct (process_file_bound lib dst_dir quality path w w1 out
                (not_in_place dst_dir quality path w Hpath) Hstep)
      as (fsrc & f' & H1 & _ & H4 & H5).
    unfold bind at 1.
    pose proof (call_quiet cb 1 total (Some true) w1 Hq) as Hc.
    destruct (call_returns cb 1 total (Some true) w1) as [w2 Hcall].
    rewrite Hcall in *. cbn [fst] in Hc.
    intros Hloop.
    destruct (IH _ _ Hsep2 Hsrc_rest Hloop) as (new' & d' & s' & Ho & Hd & Hs & Hle).
    exists (out :: new'), (Z.of_nat (List.length (content f')) + d'),
           (Z.of_nat (List.length (content fsrc)) + s').
    split. { rewrite Ho, <- app_assoc. reflexivity. }
    split.
    { cbn [sum_sizes]. rewrite Hd.
      assert (Hout' : fs w' !! out = Some f').
      { change w' with (fst (w', Returned outs : Res (list string))).
        rewrite <- Hloop, for_files_frame by (auto using Hsep1).
        now rewrite Hc. }
      now rewrite Hout'. }
    split.
    { cbn [sum_sizes]. rewrite H1.
      rewrite <- (sum_sizes_ext (fs w) (fs w2) rest), Hs; [reflexivity|].
      intros p Hp. rewrite Hc.
      change w1 with (fst (w1, Returned out : Res string)). rewrite <- Hstep.
      apply process_file_frame. now apply Hrest_step. }
    lia.
Qed.

End Totals.

Section BatchFootprint.

Context (lib : Lib).

Lemma summary_preserves {X} (P : World -> X) (files outs : list string) (total : Z) :
  preserves P (src_bytes <- sum_getsize files ;;
               dst_bytes <- sum_getsize outs ;;
               ret (total, src_bytes, dst_bytes)).
Proof.
  apply preserves_bind; [apply preserves_sum_getsize | intros sb].
  apply preserves_bind; [apply preserves_sum_getsize | intros db].
  apply preserves_ret.
Qed.

(** X4.  With a callback that leaves the files alone, the batch changes no
    file outside the possible output paths of the eligible files, whether it
    returns or raises: every other file, the sources among them when they
    are not output paths, is as it was. *)
Theorem batch_changes_only_outputs (src_dir dst_dir : string) (quality : Z)
    (cb : option Callback) (w : World) (names : list string) (p : string) :
  quiet cb ->
  listdir w src_dir = Some names ->
  ~ In p (touched dst_dir (iter_images_of w src_dir names)) ->
  fs (fst (compress_dir_with_progress lib src_dir dst_dir quality cb w)) !! p
  = fs w !! p.
Proof.
  intros Hq Hls Hp. unfold compress_dir_with_progress.
  unfold bind at 1. unfold os_makedirs.
  destruct (isfile w dst_dir); [reflexivity|].
  unfold bind at 1. unfold iter_images. rewrite Hls.
  set (files := iter_images_of w src_dir names) in *.
  unfold bind at 1.
  pose proof (call_quiet cb 0 (Z.of_nat (List.length files)) None w Hq) as Hc.
  destruct (call_returns cb 0 (Z.of_nat (List.length files)) None w) as [w0 Hcall].
  rewrite Hcall in *. cbn [fst] in Hc.
  unfold bind at 1.
  pose proof (for_files_frame lib dst_dir quality cb (Z.of_nat (List.length files))
                files [] w0 p Hq Hp) as Hloop.
  destruct (for_files lib dst_dir quality cb (Z.of_nat (List.length files)) files []
              w0) as [w1 [outs|e]]; cbn [fst] in Hloop;
    [|cbn [fst]; now rewrite Hloop, Hc].
  rewrite (summary_preserves fs files outs _ w1). now rewrite Hloop, Hc.
Qed.

(** X5.  With a callback that leaves the files alone, when no two eligible
    files share a possible output path and no eligible file is itself a
    possible output path, a batch that returns reports the number of eligible files, the sum of the sizes the sources
    had before the batch, and a total for the outputs that is no larger; the
    sources are as they were. *)
Theorem batch_total_no_larger (src_dir dst_dir : string) (quality : Z)
    (cb : option Callback) (w w' : World) (names : list string)
    (count src_bytes dst_bytes : Z) :
  quiet cb ->
  listdir w src_dir = Some names ->
  separate dst_dir (iter_images_of w src_dir names) ->
  (forall p, In p (iter_images_of w src_dir names) ->
             ~ In p (touched dst_dir (iter_images_of w src_dir names))) ->
  compress_dir_with_progress lib src_dir dst_dir quality cb w
  = (w', Returned (count, src_bytes, dst_bytes)) ->
  count = Z.of_nat (List.length (iter_images_of w src_dir names))
  /\ sum_sizes (fs w) (iter_images_of w src_dir names) = Some src_bytes
  /\ dst_bytes <= src_bytes
  /\ (forall p, In p (iter_images_of w src_dir names) -> fs w' !! p = fs w !! p).
Proof.
  intros Hq Hls Hsep Hsrc. unfold compress_dir_with_progress.
  unfold bind at 1. unfold os_makedirs.
  destruct (isfile w dst_dir); [discriminate|].
  unfold bind at 1. unfold iter_images. rewrite Hls.
  set (files := iter_images_of w src_dir names) in *.
  unfold bind at 1.
  pose proof (call_quiet cb 0 (Z.of_nat (List.length files)) None w Hq) as Hc.
  destruct (call_returns cb 0 (Z.of_nat (List.length files)) None w) as [w0 Hcall].
  rewrite Hcall in *. cbn [fst] in Hc.
  unfold bind at 1.
  destruct (for_files lib dst_dir quality cb (Z.of_nat (List.length files)) files []
              w0) as [w1 [outs|e]] eqn:Hloop; [|discriminate].
  destruct (for_files_total lib _ _ _ _ _ _ _ _ _ Hq Hsep Hsrc Hloop)
    as (new & d & s & Ho & Hd & Hs & Hle).
  cbn [app] in Ho. subst outs.
  assert (Hkeep : forall p, In p files -> fs w1 !! p = fs w !! p).
  { intros p Hp. change w1 with (fst (w1, Returned new : Res (list string))).
    rewrite <- Hloop, for_files_frame by auto. now rewrite Hc. }
  unfold bind at 1. rewrite sum_getsize_spec.
  rewrite (sum_sizes_ext (fs w0) (fs w1) files)
    by (intros p Hp; rewrite Hc; now apply Hkeep).
  rewrite Hs. unfold bind at 1. rewrite sum_getsize_spec, Hd.
  intros [= <- <- <- <-].
  repeat split; auto.
  rewrite <- Hc. exact Hs.
Qed.

End BatchFootprint.

(** ** The batch properties at work *)

Lemma recording_cb_quiet : quiet (Some recording_cb).
Proof. intros f [= <-] delta total step w. reflexivity. Qed.

(** [in/a.jpg], of 4 bytes, comes out as [out/a.jpg] with 3 bytes. *)
Lemma output_no_larger_than_source_witness :
  exists fsrc f',
    fs Demo.w_batch !! "in/a.jpg" = Some fsrc
    /\ fs (fst (process_file Toy.lib "out" 2 "in/a.jpg" Demo.w_batch)) !! "in/a.jpg"
       = Some fsrc
    /\ In "out/a.jpg" (outputs_of "out" "in/a.jpg")
    /\ fs (fst (process_file Toy.lib "out" 2 "in/a.jpg" Demo.w_batch)) !! "out/a.jpg"
       = Some f'
    /\ (List.length (content f') <= List.length (content fsrc))%nat
    /\ (f' = fsrc
        \/ fs (fst (transcode Toy.lib "out" 2 "in/a.jpg" Demo.w_batch)) !! "out/a.jpg"
           = Some f').
Proof.
  apply (output_no_larger_than_source Toy.lib "out" 2 "in/a.jpg" Demo.w_batch).
  - vm_compute. not_listed.
  - vm_compute. reflexivity.
Defined.

(** The Guard run twice on the regressed [out/c.jpg]. *)
Lemma guard_idempotent_witness :
  guard "out" "in/c.png" "out/c.png"
    (fst (guard "out" "in/c.png" "out/c.jpg" (Demo.w_regressed Demo.no_deny)))
  = (fst (guard "out" "in/c.png" "out/c.jpg" (Demo.w_regressed Demo.no_deny)),
     Returned "out/c.png").
Proof.
  apply (guard_idempotent "out" "in/c.png" "out/c.jpg"
           (Demo.w_regressed Demo.no_deny)).
  vm_compute. reflexivity.
Defined.

(** The batch from [in] to [out] leaves [in/d.txt] and [in/a.jpg] alone. *)
Lemma batch_changes_only_outputs_witness :
  fs (fst (compress_dir_with_progress Toy.lib "in" "out" 2 (Some recording_cb)
             Demo.w_batch)) !! "in/a.jpg"
  = fs Demo.w_batch !! "in/a.jpg".
Proof.
  apply (batch_changes_only_outputs Toy.lib "in" "out" 2 (Some recording_cb)
           Demo.w_batch ["a.jpg"; "b.PNG"; "c.png"; "d.txt"; "ghost.png"]).
  - exact recording_cb_quiet.
  - reflexivity.
  - vm_compute. not_listed.
Defined.

(** The batch from [in] to [out]: 3 files, 10 bytes in, 9 bytes out. *)
Lemma batch_total_no_larger_witness :
  3 = Z.of_nat (List.length (iter_images_of Demo.w_batch "in"
                               ["a.jpg"; "b.PNG"; "c.png"; "d.txt"; "ghost.png"]))
  /\ sum_sizes (fs Demo.w_batch)
       (iter_images_of Demo.w_batch "in"
          ["a.jpg"; "b.PNG"; "c.png"; "d.txt"; "ghost.png"]) = Some 10
  /\ 9 <= 10.
Proof.
  destruct (batch_total_no_larger Toy.lib "in" "out" 2 (Some recording_cb)
              Demo.w_batch
              (fst (compress_dir_with_progress Toy.lib "in" "out" 2
                      (Some recording_cb) Demo.w_batch))
              ["a.jpg"; "b.PNG"; "c.png"; "d.txt"; "ghost.png"] 3 10 9)
    as (H1 & H2 & H3 & _).
  - exact recording_cb_quiet.
  - reflexivity.
  - vm_compute. repeat split; not_listed.
  - vm_compute. not_listed.
  - vm_compute. reflexivity.
  - repeat split; assumption.
Defined.

(** ** The route of a JPEG source *)

(** X6.  A source whose extension is [.jpg] or [.jpeg], in any case, is
    encoded once, as a JPEG with the given quality, [optimize] and
    [progressive], under its own name in the destination, the case of the
    extension included; the image is converted to RGB unless its mode is RGB
    or L; no other file changes. *)
Theorem jpeg_source_keeps_name (lib : Lib) (dst_dir : string) (quality : Z)
    (path base ext0 : string) (w : World) (f : File) (img : Image) (b : bytes) :
  Path.splitext (Path.basename path) = (base, ext0) ->
  Path.str_in (Path.lower ext0) [".jpg"; ".jpeg"] = true ->
  fs w !! path = Some f ->
  decode lib (content f) = Some img ->
  encode lib (jpeg_ready lib img)
    (JPEG quality true true (dict_get "exif" (info img))
       (dict_get "icc_profile" (info img))) = Some b ->
  let out := Path.join dst_dir (Path.basename path) in
  let r := transcode lib dst_dir quality path w in
  snd r = Returned out
  /\ saves (fst r)
     = (saves w ++ [(out, jpeg_ready lib img,
                     JPEG quality true true (dict_get "exif" (info img))
                       (dict_get "icc_profile" (info img)))])%list
  /\ mode (jpeg_ready lib img) = (if String.eqb (mode img) "L" then "L" else "RGB")
  /\ fs (fst r) !! out = Some {| content := b; mtime := clock w |}
  /\ (forall p, p <> out -> fs (fst r) !! p = fs w !! p).
Proof.
  intros Hsplit Hext Hf Hd He out r. unfold r.
  rewrite (transcode_jpeg lib dst_dir quality path base ext0 w f img Hsplit Hf Hd Hext).
  fold out. unfold bind. rewrite (image_save_ok lib _ _ _ b _ He).
  cbn [fst snd ret]. rewrite fs_log_save, fs_set_fs.
  split; [reflexivity|]. split; [reflexivity|].
  split; [apply jpeg_ready_mode|].
  split; [apply lookup_insert_eq|].
  intros p Hp. now apply lookup_insert_ne.
Qed.

(** [in/a.jpg] becomes [out/a.jpg]. *)
Lemma jpeg_source_keeps_name_witness :
  snd (transcode Toy.lib "out" 2 "in/a.jpg" Demo.w_batch) = Returned "out/a.jpg"
  /\ fs (fst (transcode Toy.lib "out" 2 "in/a.jpg" Demo.w_batch)) !! "out/a.jpg"
     = Some {| content := [Byte.x01; Byte.x80; Byte.x80]; mtime := 0 |}.
Proof.
  pose proof (jpeg_source_keeps_name Toy.lib "out" 2 "in/a.jpg" "a" ".jpg"
                Demo.w_batch (Demo.file_of Demo.photo)
                {| mode := "RGB"; bands := [("R", (16, [32; 48]))]; info := [] |}
                [Byte.x01; Byte.x80; Byte.x80]
                eq_refl eq_refl eq_refl eq_refl eq_refl) as H.
  cbv zeta in H. destruct H as (H1 & _ & _ & H4 & _).
  split; assumption.
Defined.

(** ** The start button and the worker of the GUI *)

Section Gui.

Context (lib : Lib).

Lemma call_preserves {X} (P : World -> X) (cb : option Callback)
    (delta total : Z) (step : option bool) :
  (forall f, cb = Some f -> forall d t s w, P (f d t s w) = P w) ->
  preserves P (call cb delta total step).
Proof.
  intros Hcb w. destruct cb as [f|]; [|reflexivity]. now apply Hcb.
Qed.

Lemma for_files_preserves {X} (P : World -> X) (dst_dir : string) (quality : Z)
    (cb : option Callback) (total : Z) (files out_paths : list string) :
  (forall g w, P (set_fs g w) = P w) ->
  (forall p i s w, P (log_save p i s w) = P w) ->
  (forall f, cb = Some f -> forall d t s w, P (f d t s w) = P w) ->
  preserves P (for_files lib dst_dir quality cb total files out_paths).
Proof.
  intros H1 H2 Hcb. revert out_paths.
  induction files as [|path rest IH]; intros out_paths; cbn [for_files].
  - apply preserves_ret.
  - apply preserves_bind; [now apply preserves_process_file | intros out].
    apply preserves_bind; [now apply call_preserves | intros _]. apply IH.
Qed.

Lemma compress_preserves {X} (P : World -> X) (src_dir dst_dir : string)
    (quality : Z) (cb : option Callback) :
  (forall g w, P (set_fs g w) = P w) ->
  (forall p i s w, P (log_save p i s w) = P w) ->
  (forall f, cb = Some f -> forall d t s w, P (f d t s w) = P w) ->
  preserves P (compress_dir_with_progress lib src_dir dst_dir quality cb).
Proof.
  intros H1 H2 Hcb. unfold compress_dir_with_progress.
  apply preserves_bind.
  { intros w. unfold os_makedirs. now destruct (isfile w dst_dir). }
  intros _. apply preserves_bind.
  { intros w. unfold iter_images. now destruct (listdir w src_dir). }
  intros files. apply preserves_bind; [now apply call_preserves | intros _].
  apply preserves_bind; [now apply for_files_preserves | intros outs].
  apply preserves_bind; [apply preserves_sum_getsize | intros sb].
  apply preserves_bind; [apply preserves_sum_getsize | intros db].
  apply preserves_ret.
Qed.

(** The worker never raises: it ends with one message box, for the summary
    or for the exception, and with the widgets enabled. *)
Lemma run_worker_answers (src dst : string) (quality : Z) (w : World) :
  snd (run_worker lib src dst quality w) = Returned tt
  /\ ui_enabled (fst (run_worker lib src dst quality w)) = true
  /\ exists d, dialogs (fst (run_worker lib src dst quality w))
               = (dialogs w ++ [d])%list.
Proof.
  unfold run_worker, bind, attempt.
  pose proof (compress_preserves dialogs src dst quality (Some progress_cb)
                (fun _ _ => eq_refl) (fun _ _ _ _ => eq_refl)) as Hd.
  specialize (Hd ltac:(intros f [= <-] d t s w0; unfold progress_cb;
                       destruct (t =? 0); [|destruct s as [[|]|]]; reflexivity) w).
  destruct (compress_dir_with_progress lib src dst quality (Some progress_cb) w)
    as [w1 [[[count sb] db]|e]]; cbn [fst] in Hd; cbn.
  - repeat split. eexists. now rewrite Hd.
  - repeat split. eexists. now rewrite Hd.
Qed.

(** X7.  The handler of the start button never raises and shows exactly
    one message box; the widgets it found enabled are enabled when it is
    done. *)
Theorem run_shows_one_dialog (src_var dst_var quality_var : string) (w : World) :
  snd (run lib src_var dst_var quality_var w) = Returned tt
  /\ (exists d, dialogs (fst (run lib src_var dst_var quality_var w))
                = (dialogs w ++ [d])%list)
  /\ (if ui_enabled w
      then ui_enabled (fst (run lib src_var dst_var quality_var w)) = true
      else True).
Proof.
  unfold run.
  destruct (_ || _).
  { cbn. repeat split; [eexists; reflexivity | now destruct (ui_enabled w)]. }
  destruct (String.eqb _ _).
  { cbn. repeat split; [eexists; reflexivity | now destruct (ui_enabled w)]. }
  destruct (py_int lib quality_var) as [quality|].
  2:{ cbn. repeat split; [eexists; reflexivity | now destruct (ui_enabled w)]. }
  destruct (_ || _).
  { cbn. repeat split; [eexists; reflexivity | now destruct (ui_enabled w)]. }
  unfold bind at 1. cbn [modify]. unfold bind at 1. cbn [modify].
  destruct (run_worker_answers (Path.strip src_var) (Path.strip dst_var) quality
              (set_ui_enabled false (set_progress_var 0 w))) as (H1 & H2 & d & H3).
  split; [exact H1|]. split; [exists d; exact H3|].
  destruct (ui_enabled w); [exact H2 | exact I].
Qed.

End Gui.

(** ** The callback only observes *)

Section Observer.

Context (lib : Lib).

Lemma same_job_refl (w : World) : same_job w w.
Proof. repeat split. Qed.

Lemma same_job_sym (w1 w2 : World) : same_job w1 w2 -> same_job w2 w1.
Proof. intros (H1 & H2 & H3 & H4 & H5). repeat split; congruence. Qed.

Lemma same_job_trans (w1 w2 w3 : World) :
  same_job w1 w2 -> same_job w2 w3 -> same_job w1 w3.
Proof.
  intros (H1 & H2 & H3 & H4 & H5) (G1 & G2 & G3 & G4 & G5).
  repeat split; congruence.
Qed.

Lemma same_job_set_fs (g : gmap string File -> gmap string File) (w1 w2 : World) :
  same_job w1 w2 -> same_job (set_fs g w1) (set_fs g w2).
Proof.
  intros (H1 & H2 & H3 & H4 & H5). unfold same_job. cbn.
  repeat split; congruence.
Qed.

Lemma same_job_log_save (p : string) (i : Image) (s : SaveFormat) (w1 w2 : World) :
  same_job w1 w2 -> same_job (log_save p i s w1) (log_save p i s w2).
Proof.
  intros (H1 & H2 & H3 & H4 & H5). unfold same_job. cbn.
  repeat split; congruence.
Qed.

Lemma respects_ret {A} (a : A) : respects (ret a) (ret a).
Proof. intros w1 w2 H. split; [reflexivity | exact H]. Qed.

Lemma respects_lift {A} (r : Res A) : respects (lift r) (lift r).
Proof. intros w1 w2 H. split; [reflexivity | exact H]. Qed.

Lemma respects_bind {A B} (m1 m2 : M A) (k1 k2 : A -> M B) :
  respects m1 m2 -> (forall a, respects (k1 a) (k2 a)) ->
  respects (bind m1 k1) (bind m2 k2).
Proof.
  intros Hm Hk w1 w2 H. unfold bind. destruct (Hm w1 w2 H) as [Hr Hw].
  destruct (m1 w1) as [w1' r1], (m2 w2) as [w2' r2]. cbn [fst snd] in *.
  subst r2. destruct r1 as [a|e]; [now apply Hk | split; [reflexivity | exact Hw]].
Qed.

Lemma respects_getsize (p : string) : respects (getsize p) (getsize p).
Proof.
  intros w1 w2 H. unfold getsize. destruct H as (H1 & H').
  rewrite H1. destruct (fs w2 !! p); (split; [reflexivity | now split]).
Qed.

Lemma respects_remove (p : string) :
  respects (try_except_OSError (os_remove p)) (try_except_OSError (os_remove p)).
Proof.
  intros w1 w2 H. unfold try_except_OSError, os_remove.
  pose proof H as (H1 & H2 & H3 & H4 & H5). rewrite H3, H1.
  destruct (denied w2 p); [split; [reflexivity | exact H]|].
  destruct (fs w2 !! p); cbn; (split; [reflexivity|]);
    [now apply same_job_set_fs | exact H].
Qed.

Lemma respects_copy2 (src dst : string) :
  respects (shutil_copy2 src dst) (shutil_copy2 src dst).
Proof.
  intros w1 w2 H. unfold shutil_copy2. pose proof H as (H1 & _). rewrite H1.
  destruct (fs w2 !! src); [|split; [reflexivity | exact H]].
  destruct (String.eqb src dst); (split; [reflexivity|]);
    [exact H | now apply same_job_set_fs].
Qed.

Lemma respects_image_open (p : string) :
  respects (image_open lib p) (image_open lib p).
Proof.
  intros w1 w2 H. unfold image_open. pose proof H as (H1 & _). rewrite H1.
  destruct (fs w2 !! p); [|split; [reflexivity | exact H]].
  destruct (decode lib _); (split; [reflexivity | exact H]).
Qed.

Lemma respects_image_save (img : Image) (p : string) (fmt : SaveFormat) :
  respects (image_save lib img p fmt) (image_save lib img p fmt).
Proof.
  intros w1 w2 H. unfold image_save. pose proof H as (H1 & H2 & H3 & H4 & H5).
  destruct (encode lib img fmt); [|split; [reflexivity | exact H]].
  rewrite H4. split; [reflexivity|].
  now apply same_job_log_save, same_job_set_fs.
Qed.

Lemma respects_guard (dst_dir path out_path : string) :
  respects (guard dst_dir path out_path) (guard dst_dir path out_path).
Proof.
  unfold guard.
  apply respects_bind; [apply respects_getsize | intros out_size].
  apply respects_bind; [apply respects_getsize | intros src_size].
  destruct (src_size <? out_size); [|apply respects_ret].
  apply respects_bind.
  - destruct (negb _); [|apply respects_ret].
    apply respects_bind; [apply respects_remove | intros; apply respects_ret].
  - intros p. apply respects_bind; [apply respects_copy2|].
    intros; apply respects_ret.
Qed.

Lemma respects_transcode (dst_dir : string) (quality : Z) (path : string) :
  respects (transcode lib dst_dir quality path) (transcode lib dst_dir quality path).
Proof.
  unfold transcode. destruct (Path.splitext _) as [base ext0].
  apply respects_bind; [apply respects_image_open | intros img].
  apply respects_bind.
  - destruct (String.eqb _ _); [|apply respects_ret].
    apply respects_bind; [apply respects_lift | intros [|]].
    + apply respects_bind; [apply respects_image_save|].
      intros; apply respects_ret.
    + apply respects_ret.
  - intros [[out_path [|]] img']; cbn [andb].
    + apply respects_bind; [apply respects_image_save|].
      intros; apply respects_ret.
    + apply respects_bind; [apply respects_ret|].
      intros; apply respects_ret.
Qed.

Lemma respects_process_file (dst_dir : string) (quality : Z) (path : string) :
  respects (process_file lib dst_dir quality path)
           (process_file lib dst_dir quality path).
Proof.
  unfold process_file.
  apply respects_bind; [apply respects_transcode | intros; apply respects_guard].
Qed.

Lemma respects_call (cb1 cb2 : option Callback) (delta total : Z)
    (step : option bool) :
  observer cb1 -> observer cb2 ->
  respects (call cb1 delta total step) (call cb2 delta total step).
Proof.
  intros H1 H2 w1 w2 H.
  assert (G1 : same_job (fst (call cb1 delta total step w1)) w1).
  { destruct cb1 as [f|]; [now apply H1 | apply same_job_refl]. }
  assert (G2 : same_job (fst (call cb2 delta total step w2)) w2).
  { destruct cb2 as [f|]; [now apply H2 | apply same_job_refl]. }
  split.
  - destruct cb1, cb2; reflexivity.
  - eapply same_job_trans; [exact G1|].
    eapply same_job_trans; [exact H|]. now apply same_job_sym.
Qed.

Lemma respects_for_files (dst_dir : string) (quality : Z)
    (cb1 cb2 : option Callback) (total : Z) (files out_paths : list string) :
  observer cb1 -> observer cb2 ->
  respects (for_files lib dst_dir quality cb1 total files out_paths)
           (for_files lib dst_dir quality cb2 total files out_paths).
Proof.
  intros H1 H2. revert out_paths.
  induction files as [|path rest IH]; intros out_paths; cbn [for_files].
  - apply respects_ret.
  - apply respects_bind; [apply respects_process_file | intros out].
    apply respects_bind; [now apply respects_call | intros _]. apply IH.
Qed.

Lemma respects_sum_getsize (paths : list string) :
  respects (sum_getsize paths) (sum_getsize paths).
Proof.
  induction paths as [|p rest IH]; cbn [sum_getsize].
  - apply respects_ret.
  - apply respects_bind; [apply respects_getsize | intros n].
    apply respects_bind; [exact IH | intros; apply respects_ret].
Qed.

Lemma iter_images_of_fs (w1 w2 : World) (src_dir : string) (names : list string) :
  fs w1 = fs w2 -> iter_images_of w1 src_dir names = iter_images_of w2 src_dir names.
Proof.
  intros H. induction names as [|name rest IH]; [reflexivity|].
  cbn [iter_images_of]. unfold isfile. rewrite H, IH. reflexivity.
Qed.

Lemma respects_compress (src_dir dst_dir : string) (quality : Z)
    (cb1 cb2 : option Callback) :
  observer cb1 -> observer cb2 ->
  respects (compress_dir_with_progress lib src_dir dst_dir quality cb1)
           (compress_dir_with_progress lib src_dir dst_dir quality cb2).
Proof.
  intros H1 H2. unfold compress_dir_with_progress.
  apply respects_bind.
  { intros w1 w2 H. unfold os_makedirs, isfile. pose proof H as (G1 & _).
    rewrite G1. destruct (fs w2 !! dst_dir); (split; [reflexivity | exact H]). }
  intros _. apply respects_bind.
  { intros w1 w2 H. unfold iter_images. pose proof H as (G1 & G2 & _).
    rewrite G2. destruct (listdir w2 src_dir) as [names|];
      [|split; [reflexivity | exact H]].
    rewrite (iter_images_of_fs w1 w2 src_dir names G1).
    split; [reflexivity | exact H]. }
  intros files. apply respects_bind; [now apply respects_call | intros _].
  apply respects_bind; [now apply respects_for_files | intros outs].
  apply respects_bind; [apply respects_sum_getsize | intros sb].
  apply respects_bind; [apply respects_sum_getsize | intros db].
  apply respects_ret.
Qed.

(** X9.  The callback only observes: with any two callbacks that leave the
    files, the listings, the clock and the encoder calls alone, or with none,
    the batch gives the same result, the same files and the same encoder
    calls. *)
Theorem callback_does_not_matter (src_dir dst_dir : string) (quality : Z)
    (cb1 cb2 : option Callback) (w : World) :
  observer cb1 -> observer cb2 ->
  snd (compress_dir_with_progress lib src_dir dst_dir quality cb1 w)
  = snd (compress_dir_with_progress lib src_dir dst_dir quality cb2 w)
  /\ same_job (fst (compress_dir_with_progress lib src_dir dst_dir quality cb1 w))
              (fst (compress_dir_with_progress lib src_dir dst_dir quality cb2 w)).
Proof.
  intros H1 H2.
  exact (respects_compress src_dir dst_dir quality cb1 cb2 H1 H2 w w
           (same_job_refl w)).
Qed.

End Observer.

Lemma progress_cb_observer : observer (Some progress_cb).
Proof.
  intros f [= <-] delta total step w. unfold progress_cb.
  destruct (total =? 0); [|destruct step as [[|]|]]; repeat split.
Qed.

Lemma no_callback_observer : observer None.
Proof. intros f H. discriminate. Qed.

(** The command line's batch and the GUI's do the same to [in] and [out]. *)
Lemma callback_does_not_matter_witness :
  snd (compress_dir_with_progress Toy.lib "in" "out" 2 None Demo.w_batch)
  = snd (compress_dir_with_progress Toy.lib "in" "out" 2 (Some progress_cb)
           Demo.w_batch)
  /\ same_job
       (fst (compress_dir_with_progress Toy.lib "in" "out" 2 None Demo.w_batch))
       (fst (compress_dir_with_progress Toy.lib "in" "out" 2 (Some progress_cb)
               Demo.w_batch)).
Proof.
  exact (callback_does_not_matter Toy.lib "in" "out" 2 None (Some progress_cb)
           Demo.w_batch no_callback_observer progress_cb_observer).
Defined.

(** ** The progress value of the GUI, and a folder compressed onto itself *)

(** X10.  With the callback of the GUI, a batch that returns leaves the
    progress value at the number of files it reports: the first call sets it
    to 0 and each later call adds one, never past the total.  The batch
    itself shows no message box and leaves the widgets as they are. *)
Theorem gui_progress_reaches_count (lib : Lib) (src_dir dst_dir : string)
    (quality : Z) (w w' : World) (count src_bytes dst_bytes : Z) :
  compress_dir_with_progress lib src_dir dst_dir quality (Some progress_cb) w
  = (w', Returned (count, src_bytes, dst_bytes)) ->
  progress_var w' = count
  /\ dialogs w' = dialogs w
  /\ ui_enabled w' = ui_enabled w.
Proof.
  intros Hrun.
  assert (Hcb : forall {X} (P : World -> X),
            (forall v w0, P (set_progress_var v w0) = P w0) ->
            (forall c w0, P (log_call c w0) = P w0) ->
            forall f, Some progress_cb = Some f ->
              forall d t s w0, P (f d t s w0) = P w0).
  { intros X P Hv Hc f [= <-] d t s w0. unfold progress_cb.
    destruct (t =? 0); [|destruct s as [[|]|]]; now rewrite Hv, Hc. }
  split; [exact (gui_progress_ends_at_count lib _ _ _ _ _ _ _ _ Hrun)|].
  split.
  - change w' with (fst (w', Returned (count, src_bytes, dst_bytes) : Res (Z * Z * Z))).
    rewrite <- Hrun.
    apply (compress_preserves lib dialogs); try reflexivity.
    apply Hcb; reflexivity.
  - change w' with (fst (w', Returned (count, src_bytes, dst_bytes) : Res (Z * Z * Z))).
    rewrite <- Hrun.
    apply (compress_preserves lib ui_enabled); try reflexivity.
    apply Hcb; reflexivity.
Qed.

(** The GUI's progress value after the batch over [in] is 3. *)
Lemma gui_progress_reaches_count_witness :
  progress_var (fst (compress_dir_with_progress Toy.lib "in" "out" 2
                       (Some progress_cb) Demo.w_batch)) = 3.
Proof.
  apply (gui_progress_reaches_count Toy.lib "in" "out" 2 Demo.w_batch _ 3 10 9).
  vm_compute. reflexivity.
Defined.

(** X11.  A folder compressed onto itself, a PNG without transparency whose
    JPEG is larger than the PNG: the Guard removes [base.jpg], whatever was
    there before the run, unless the removal is refused, and then the copy of
    the source onto itself raises [SameFileError] out of the pipeline; the
    PNG is as it was. *)
Theorem png_in_place_regression_raises (lib : Lib) (dir : string) (quality : Z)
    (path base ext0 : string) (w : World) (f : File) (img : Image) (b : bytes) :
  Path.splitext (Path.basename path) = (base, ext0) ->
  Path.lower ext0 = ".png" ->
  fs w !! path = Some f ->
  decode lib (content f) = Some img ->
  has_transparency img = Returned false ->
  Path.join dir (Path.basename path) = path ->
  Path.join dir (base +:+ ".jpg") <> path ->
  encode lib (jpeg_ready lib img)
    (JPEG quality true true (dict_get "exif" (info img))
       (dict_get "icc_profile" (info img))) = Some b ->
  (List.length (content f) < List.length b)%nat ->
  let r := process_file lib dir quality path w in
  snd r = Raised SameFileError
  /\ fs (fst r) !! path = Some f
  /\ fs (fst r) !! Path.join dir (base +:+ ".jpg")
     = (if denied w (Path.join dir (base +:+ ".jpg"))
        then Some {| content := b; mtime := clock w |} else None).
Proof.
  intros Hsplit Hext Hf Hd Ht Hjoin Hne He Hlt r. unfold r, process_file, bind.
  rewrite (transcode_png_opaque lib dir quality path base ext0 w f img
             Hsplit Hf Hd Hext Ht).
  unfold bind. rewrite (image_save_ok lib _ _ _ b _ He). unfold ret.
  set (out := Path.join dir (base +:+ ".jpg")) in *.
  set (fb := {| content := b; mtime := clock w |}).
  match goal with
  | |- context [guard dir path out ?w0] => set (w1 := w0)
  end.
  assert (Hout1 : fs w1 !! out = Some fb).
  { unfold w1. rewrite fs_log_save, fs_set_fs. apply lookup_insert_eq. }
  assert (Hsrc1 : fs w1 !! path = Some f).
  { unfold w1. rewrite fs_log_save, fs_set_fs, lookup_insert_ne; [exact Hf|].
    exact Hne. }
  assert (Hren : out <> Path.join dir (Path.basename path)) by now rewrite Hjoin.
  rewrite (guard_renames dir path out w1 f fb Hsrc1 Hout1 Hlt Hren).
  rewrite Hjoin, String.eqb_refl. cbn [fst snd].
  change (denied w1 out) with (denied w out).
  split; [reflexivity|].
  destruct (denied w out).
  - split; [exact Hsrc1 | exact Hout1].
  - rewrite fs_set_fs. split.
    + rewrite lookup_delete_ne; [exact Hsrc1 | exact Hne].
    + apply lookup_delete_eq.
Qed.

(** In [d], the run on [d/c.png] removes the JPEG [d/c.jpg] that was there
    and raises. *)
Lemma png_in_place_regression_raises_witness :
  snd (process_file Toy.lib "d" 5 "d/c.png" Cases.w_png_in_place)
  = Raised SameFileError
  /\ fs (fst (process_file Toy.lib "d" 5 "d/c.png" Cases.w_png_in_place)) !! "d/c.png"
     = Some (Demo.file_of Demo.opaque)
  /\ fs (fst (process_file Toy.lib "d" 5 "d/c.png" Cases.w_png_in_place)) !! "d/c.jpg"
     = None.
Proof.
  pose proof (png_in_place_regression_raises Toy.lib "d" 5 "d/c.png" "c" ".png"
                Cases.w_png_in_place (Demo.file_of Demo.opaque) Demo.opaque_img
                [Byte.x01; Byte.x80; Byte.x80; Byte.x80; Byte.x80; Byte.x80]
                eq_refl eq_refl eq_refl eq_refl eq_refl eq_refl) as H.
  cbv zeta in H. apply H.
  - discriminate.
  - reflexivity.
  - simpl. lia.
Defined.

(** ** The encoder calls of a batch *)

Lemma str_app_assoc (a b c : string) : (a +:+ b) +:+ c = a +:+ (b +:+ c).
Proof.
  induction a as [|x a IH]; [reflexivity|].
  change (String x ((a +:+ b) +:+ c) = String x (a +:+ (b +:+ c))).
  f_equal. exact IH.
Qed.

Lemma drop_str_app (pre s : string) :
  Path.drop_str (String.length pre) (pre +:+ s) = s.
Proof. induction pre as [|x pre IH]; [now destruct s | exact IH]. Qed.

Lemma rfind_from_no_sep (s : string) (i : Z) :
  no_sep s = true -> Path.rfind_from "/" s i = -1.
Proof.
  revert i. induction s as [|a s IH]; intros i H; [reflexivity|].
  cbn [no_sep] in H. apply andb_true_iff in H. destruct H as [Ha Hs].
  cbn [Path.rfind_from]. rewrite (IH (i + 1) Hs). cbn.
  apply negb_true_iff in Ha. now rewrite Ha.
Qed.

Lemma rfind_from_after_sep (pre name : string) (i : Z) :
  0 <= i ->
  Path.ends_with_sep pre = true ->
  no_sep name = true ->
  Path.rfind_from "/" (pre +:+ name) i = i + Z.of_nat (String.length pre) - 1.
Proof.
  revert i. induction pre as [|a pre IH]; intros i Hi He Hn; [discriminate|].
  change (String a pre +:+ name) with (String a (pre +:+ name)).
  cbn [Path.rfind_from String.length].
  destruct pre as [|b pre'].
  - cbn [Path.ends_with_sep] in He.
    change (EmptyString +:+ name) with name.
    rewrite (rfind_from_no_sep name (i + 1) Hn). cbn [Z.leb Z.compare].
    rewrite He. cbn [String.length]. lia.
  - assert (He' : Path.ends_with_sep (String b pre') = true) by exact He.
    rewrite (IH (i + 1) ltac:(lia) He' Hn).
    assert (H0 : (0 <=? i + 1 + Z.of_nat (String.length (String b pre')) - 1) = true).
    { apply Z.leb_le. cbn [String.length]. lia. }
    rewrite H0. lia.
Qed.

Lemma ends_with_sep_app_sep (s : string) : Path.ends_with_sep (s +:+ "/") = true.
Proof.
  induction s as [|a s IH]; [reflexivity|].
  change (String a s +:+ "/") with (String a (s +:+ "/")).
  cbn [Path.ends_with_sep]. destruct (s +:+ "/") eqn:E; [|exact IH].
  destruct s; discriminate.
Qed.

Lemma prefix_sep_no_sep (name : string) :
  no_sep name = true -> String.prefix "/" name = false.
Proof.
  destruct name as [|a name]; [reflexivity|].
  cbn [no_sep String.prefix]. intros H. apply andb_true_iff in H.
  destruct H as [Ha _]. apply negb_true_iff, Ascii.eqb_neq in Ha.
  destruct (ascii_dec "/" a) as [E|E]; [now subst a | reflexivity].
Qed.

(** The name of a file in a folder is the base name of its path. *)
Lemma basename_join (src_dir name : string) :
  no_sep name = true -> Path.basename (Path.join src_dir name) = name.
Proof.
  intros Hn. unfold Path.join. rewrite (prefix_sep_no_sep name Hn).
  destruct (String.eqb src_dir EmptyString) eqn:E0.
  { apply String.eqb_eq in E0. subst src_dir. cbn [orb].
    change (EmptyString +:+ name) with name.
    unfold Path.basename, Path.rfind. now rewrite (rfind_from_no_sep name 0 Hn). }
  cbn [orb]. destruct (Path.ends_with_sep src_dir) eqn:Es.
  - unfold Path.basename, Path.rfind.
    rewrite (rfind_from_after_sep src_dir name 0 ltac:(lia) Es Hn).
    replace (Z.to_nat (0 + Z.of_nat (String.length src_dir) - 1 + 1))
      with (String.length src_dir) by lia.
    apply drop_str_app.
  - rewrite <- str_app_assoc. unfold Path.basename, Path.rfind.
    rewrite (rfind_from_after_sep (src_dir +:+ "/") name 0 ltac:(lia)
               (ends_with_sep_app_sep src_dir) Hn).
    replace (Z.to_nat (0 + Z.of_nat (String.length (src_dir +:+ "/")) - 1 + 1))
      with (String.length (src_dir +:+ "/")) by lia.
    apply drop_str_app.
Qed.

Lemma iter_images_eligible (w : World) (src_dir : string) (names : list string)
    (path : string) :
  In path (iter_images_of w src_dir names) ->
  exists name,
    In name names /\ path = Path.join src_dir name
    /\ Path.str_in (Path.lower (snd (Path.splitext name)))
         [".jpg"; ".jpeg"; ".png"] = true.
Proof.
  induction names as [|name rest IH]; cbn [iter_images_of]; [intros []|].
  destruct (negb _).
  - intros H. destruct (IH H) as (n & Hn & Hrest). exists n. split; [now right | auto].
  - destruct (Path.str_in _ _) eqn:He.
    + intros [<- | H].
      * exists name. split; [now left | auto].
      * destruct (IH H) as (n & Hn & Hrest). exists n. split; [now right | auto].
    + intros H. destruct (IH H) as (n & Hn & Hrest). exists n.
      split; [now right | auto].
Qed.

Section EncoderCalls.

Context (lib : Lib).

Lemma jpeg_ready_rgb_or_l (img : Image) :
  mode (jpeg_ready lib img) = "RGB" \/ mode (jpeg_ready lib img) = "L".
Proof.
  rewrite jpeg_ready_mode. destruct (String.eqb (mode img) "L"); auto.
Qed.

(** The Transcoder makes at most one encoder call, and a good one. *)
Lemma transcode_saves (dst_dir : string) (quality : Z) (path : string) (w : World) :
  saves (fst (transcode lib dst_dir quality path w)) = saves w
  \/ exists s, saves (fst (transcode lib dst_dir quality path w))
               = (saves w ++ [s])%list
               /\ good_save quality s
               /\ snd (transcode lib dst_dir quality path w) = Returned (fst (fst s)).
Proof.
  destruct (Path.splitext (Path.basename path)) as [base ext0] eqn:Hsplit.
  destruct (fs w !! path) as [f|] eqn:Hf.
  2:{ left. unfold transcode. rewrite Hsplit. unfold bind, image_open.
      now rewrite Hf. }
  destruct (decode lib (content f)) as [img|] eqn:Hd.
  2:{ left. unfold transcode. rewrite Hsplit. unfold bind, image_open.
      now rewrite Hf, Hd. }
  destruct (String.eqb (Path.lower ext0) ".png") eqn:Hpng.
  - pose proof Hpng as Hext. apply String.eqb_eq in Hext.
    destruct (has_transparency img) as [[|]|e] eqn:Ht.
    + rewrite (transcode_png_transparent lib dst_dir quality path base ext0 w f img
                 Hsplit Hf Hd Hext Ht).
      unfold bind, image_save.
      destruct (encode lib img (PNG true 9)); [|now left].
      right. eexists. cbn. split; [reflexivity|]. split; [|reflexivity].
      repeat split. exact Ht.
    + rewrite (transcode_png_opaque lib dst_dir quality path base ext0 w f img
                 Hsplit Hf Hd Hext Ht).
      unfold bind, image_save.
      destruct (encode lib (jpeg_ready lib img) _); [|now left].
      right. eexists. cbn. split; [reflexivity|]. split; [|reflexivity].
      repeat split. apply jpeg_ready_rgb_or_l.
    + left. unfold transcode. rewrite Hsplit, Hpng. unfold bind, image_open, lift.
      now rewrite Hf, Hd, Ht.
  - destruct (Path.str_in (Path.lower ext0) [".jpg"; ".jpeg"]) eqn:Hjpg.
    + rewrite (transcode_jpeg lib dst_dir quality path base ext0 w f img
                 Hsplit Hf Hd Hjpg).
      unfold bind, image_save.
      destruct (encode lib (jpeg_ready lib img) _); [|now left].
      right. eexists. cbn. split; [reflexivity|]. split; [|reflexivity].
      repeat split. apply jpeg_ready_rgb_or_l.
    + left. unfold transcode. rewrite Hsplit, Hpng, Hjpg.
      unfold bind, image_open. now rewrite Hf, Hd.
Qed.

(** For an eligible file the Transcoder that returns has made one call. *)
Lemma transcode_one_save (dst_dir : string) (quality : Z) (path : string)
    (w w1 : World) (out : string) :
  Path.str_in (Path.lower (snd (Path.splitext (Path.basename path))))
    [".jpg"; ".jpeg"; ".png"] = true ->
  transcode lib dst_dir quality path w = (w1, Returned out) ->
  List.length (saves w1) = S (List.length (saves w)).
Proof.
  intros Hel Hrun.
  destruct (transcode_saves dst_dir quality path w) as [Hsame | (s & Hs & _ & _)].
  2:{ rewrite Hrun in Hs. cbn [fst] in Hs. rewrite Hs, length_app. cbn. lia. }
  exfalso. revert Hrun Hsame. unfold transcode.
  destruct (Path.splitext (Path.basename path)) as [base ext0]. cbn [snd] in Hel.
  unfold bind, image_open, lift, ret.
  destruct (fs w !! path) as [f|]; [|discriminate].
  destruct (decode lib (content f)) as [img|]; [|discriminate].
  assert (Hsave : forall i o fmt wa, image_save lib i o fmt w = (wa, Returned tt) ->
            saves wa <> saves w).
  { intros i o fmt wa. unfold image_save.
    destruct (encode lib i fmt); [|discriminate].
    intros [= <-]. cbn. intros E.
    apply (f_equal (@List.length _)) in E. rewrite length_app in E. cbn in E. lia. }
  destruct (String.eqb (Path.lower ext0) ".png") eqn:Hpng.
  - destruct (has_transparency img) as [[|]|e]; [| |discriminate].
    + destruct (image_save lib img _ (PNG true 9) w) as [wa [[]|e]] eqn:Hs;
        [|discriminate].
      cbn [andb]. intros [= <- _] E. now apply (Hsave _ _ _ _ Hs).
    + cbn [andb].
      match goal with
      | |- context [image_save lib ?i ?o ?fmt w] =>
          destruct (image_save lib i o fmt w) as [wa [[]|e]] eqn:Hs;
            [|discriminate]
      end.
      intros [= <- _] E. now apply (Hsave _ _ _ _ Hs).
  - assert (Hjpg : Path.str_in (Path.lower ext0) [".jpg"; ".jpeg"] = true).
    { unfold Path.str_in in *. cbn [existsb] in *. rewrite Hpng in Hel.
      now rewrite !orb_false_r in *. }
    rewrite Hjpg. cbn [andb].
    match goal with
    | |- context [image_save lib ?i ?o ?fmt w] =>
        destruct (image_save lib i o fmt w) as [wa [[]|e]] eqn:Hs;
          [|discriminate]
    end.
    intros [= <- _] E. now apply (Hsave _ _ _ _ Hs).
Qed.

Lemma process_file_saves (dst_dir : string) (quality : Z) (path : string)
    (w : World) :
  saves (fst (process_file lib dst_dir quality path w))
  = saves (fst (transcode lib dst_dir quality path w)).
Proof.
  unfold process_file, bind.
  destruct (transcode lib dst_dir quality path w) as [w1 [out|e]];
    [|reflexivity].
  cbn [fst]. apply (preserves_guard saves). reflexivity.
Qed.

Lemma for_files_saves (dst_dir : string) (quality : Z) (cb : option Callback)
    (total : Z) (files out_paths : list string) (w : World) :
  keeps_saves cb ->
  exists new,
    saves (fst (for_files lib dst_dir quality cb total files out_paths w))
    = (saves w ++ new)%list
    /\ Forall (good_save quality) new.
Proof.
  intros Hcb. revert out_paths w.
  induction files as [|path rest IH]; intros out_paths w.
  - exists []. cbn. now rewrite app_nil_r.
  - cbn [for_files]. unfold bind at 1.
    pose proof (process_file_saves dst_dir quality path w) as Hp.
    pose proof (transcode_saves dst_dir quality path w) as Ht.
    rewrite <- Hp in Ht. clear Hp.
    assert (Hstep : exists new1,
              saves (fst (process_file lib dst_dir quality path w))
              = (saves w ++ new1)%list /\ Forall (good_save quality) new1).
    { destruct Ht as [Hsame | (s & Hs & Hg & _)].
      - exists []. now rewrite app_nil_r.
      - exists [s]. split; [exact Hs | now constructor]. }
    clear Ht. destruct Hstep as (new1 & Hs1 & Hg1).
    destruct (process_file lib dst_dir quality path w) as [w1 [out|e]];
      cbn [fst] in *; [|now exists new1].
    unfold bind at 1.
    pose proof (call_preserves saves cb 1 total (Some true) Hcb w1) as Hc.
    destruct (call_returns cb 1 total (Some true) w1) as [w2 Hcall].
    rewrite Hcall in *. cbn [fst] in Hc.
    destruct (IH (out_paths ++ [out])%list w2) as (new2 & Hs2 & Hg2).
    exists (new1 ++ new2)%list. split.
    + rewrite Hs2, Hc, Hs1, app_assoc. reflexivity.
    + now apply Forall_app.
Qed.

(** X12.  Every save of a batch that the encoder has accepted (a call it
    refuses raises and ends the batch) is one the program means to make: a
    PNG save with [optimize=True] and [compress_level=9] of an image that
    has transparency, or a JPEG save with the quality of the batch,
    [optimize=True] and [progressive=True] of an image in mode RGB or L;
    this holds of a batch that raises as well. *)
Theorem batch_encoder_calls (src_dir dst_dir : string) (quality : Z)
    (cb : option Callback) (w : World) :
  keeps_saves cb ->
  exists new,
    saves (fst (compress_dir_with_progress lib src_dir dst_dir quality cb w))
    = (saves w ++ new)%list
    /\ Forall (good_save quality) new.
Proof.
  intros Hcb. unfold compress_dir_with_progress.
  unfold bind at 1. unfold os_makedirs.
  destruct (isfile w dst_dir); [exists []; cbn; now rewrite app_nil_r|].
  unfold bind at 1. unfold iter_images.
  destruct (listdir w src_dir) as [names|];
    [|exists []; cbn; now rewrite app_nil_r].
  set (files := iter_images_of w src_dir names).
  unfold bind at 1.
  pose proof (call_preserves saves cb 0 (Z.of_nat (List.length files)) None Hcb w)
    as Hc.
  destruct (call_returns cb 0 (Z.of_nat (List.length files)) None w) as [w0 Hcall].
  rewrite Hcall in *. cbn [fst] in Hc.
  unfold bind at 1.
  destruct (for_files_saves dst_dir quality cb (Z.of_nat (List.length files))
              files [] w0 Hcb) as (new & Hs & Hg).
  exists new. split; [|exact Hg].
  destruct (for_files lib dst_dir quality cb (Z.of_nat (List.length files)) files []
              w0) as [w1 [outs|e]]; cbn [fst] in *.
  - rewrite (summary_preserves saves files outs _ w1). now rewrite Hs, Hc.
  - now rewrite Hs, Hc.
Qed.

Lemma for_files_one_save_each (dst_dir : string) (quality : Z)
    (cb : option Callback) (total : Z) (files out_paths outs : list string)
    (w w' : World) :
  keeps_saves cb ->
  (forall path, In path files ->
     Path.str_in (Path.lower (snd (Path.splitext (Path.basename path))))
       [".jpg"; ".jpeg"; ".png"] = true) ->
  for_files lib dst_dir quality cb total files out_paths w = (w', Returned outs) ->
  List.length (saves w') = (List.length (saves w) + List.length files)%nat.
Proof.
  intros Hcb. revert out_paths w.
  induction files as [|path rest IH]; intros out_paths w Hel.
  - intros [= <- _]. cbn. lia.
  - cbn [for_files]. unfold bind at 1.
    pose proof (process_file_saves dst_dir quality path w) as Hp.
    destruct (process_file lib dst_dir quality path w) as [w1 [out|e]] eqn:Hstep;
      [|discriminate].
    cbn [fst] in Hp.
    assert (H1 : List.length (saves w1) = S (List.length (saves w))).
    { unfold process_file, bind in Hstep.
      destruct (transcode lib dst_dir quality path w) as [wt [o|e]] eqn:Ht;
        [|discriminate].
      cbn [fst] in Hp. rewrite Hp.
      apply (transcode_one_save dst_dir quality path w wt o); [|exact Ht].
      apply Hel. now left. }
    unfold bind at 1.
    pose proof (call_preserves saves cb 1 total (Some true) Hcb w1) as Hc.
    destruct (call_returns cb 1 total (Some true) w1) as [w2 Hcall].
    rewrite Hcall in *. cbn [fst] in Hc.
    intros Hloop. apply IH in Hloop; [|intros p Hp'; apply Hel; now right].
    rewrite Hloop, Hc, H1. cbn [List.length]. lia.
Qed.

(** X13.  A batch that returns has called the encoder once for each
    eligible file. *)
Theorem one_encoder_call_per_file (src_dir dst_dir : string) (quality : Z)
    (cb : option Callback) (w w' : World) (names : list string)
    (count src_bytes dst_bytes : Z) :
  keeps_saves cb ->
  listdir w src_dir = Some names ->
  (forall name, In name names -> no_sep name = true) ->
  compress_dir_with_progress lib src_dir dst_dir quality cb w
  = (w', Returned (count, src_bytes, dst_bytes)) ->
  Z.of_nat (List.length (saves w')) = Z.of_nat (List.length (saves w)) + count.
Proof.
  intros Hcb Hls Hnames. unfold compress_dir_with_progress.
  unfold bind at 1. unfold os_makedirs.
  destruct (isfile w dst_dir); [discriminate|].
  unfold bind at 1. unfold iter_images. rewrite Hls.
  assert (Hel : forall path, In path (iter_images_of w src_dir names) ->
            Path.str_in (Path.lower (snd (Path.splitext (Path.basename path))))
              [".jpg"; ".jpeg"; ".png"] = true).
  { intros path Hin.
    destruct (iter_images_eligible w src_dir names path Hin) as (name & Hn & -> & He).
    now rewrite (basename_join src_dir name (Hnames name Hn)). }
  set (files := iter_images_of w src_dir names) in *.
  unfold bind at 1.
  pose proof (call_preserves saves cb 0 (Z.of_nat (List.length files)) None Hcb w)
    as Hc.
  destruct (call_returns cb 0 (Z.of_nat (List.length files)) None w) as [w0 Hcall].
  rewrite Hcall in *. cbn [fst] in Hc.
  unfold bind at 1.
  destruct (for_files lib dst_dir quality cb (Z.of_nat (List.length files)) files []
              w0) as [w1 [outs|e]] eqn:Hloop; [|discriminate].
  apply (for_files_one_save_each _ _ _ _ _ _ _ _ _ Hcb Hel) in Hloop.
  pose proof (summary_preserves saves files outs (Z.of_nat (List.length files)) w1)
    as Hsum.
  destruct ((src_bytes0 <- sum_getsize files ;;
             dst_bytes0 <- sum_getsize outs ;;
             ret (Z.of_nat (List.length files), src_bytes0, dst_bytes0)) w1)
    as [w2 r] eqn:Htail.
  cbn [fst] in Hsum. intros [= -> Hr].
  assert (Hcount : count = Z.of_nat (List.length files)).
  { revert Htail. unfold bind at 1. rewrite sum_getsize_spec.
    destruct (sum_sizes (fs w1) files); [|subst r; discriminate].
    unfold bind at 1. rewrite sum_getsize_spec.
    destruct (sum_sizes (fs w1) outs); subst r; [|discriminate].
    now intros [= _ <- _ _]. }
  rewrite Hsum, Hloop, Hc, Hcount. lia.
Qed.

End EncoderCalls.

(** ** The encoder calls of a click *)

Section GuiEncoderCalls.

Context (lib : Lib).

Lemma progress_cb_keeps_saves : keeps_saves (Some progress_cb).
Proof.
  intros f [= <-] delta total step w. unfold progress_cb.
  destruct (total =? 0); [reflexivity|].
  destruct step as [[|]|]; reflexivity.
Qed.

Lemma run_worker_saves (src dst : string) (quality : Z) (w : World) :
  exists new,
    saves (fst (run_worker lib src dst quality w)) = (saves w ++ new)%list
    /\ Forall (good_save quality) new.
Proof.
  unfold run_worker, bind, attempt, compress_dir_with_progress.
  unfold bind at 1. unfold os_makedirs.
  destruct (isfile w dst); [exists []; cbn; now rewrite app_nil_r|].
  unfold bind at 1. unfold iter_images.
  destruct (listdir w src) as [names|];
    [|exists []; cbn; now rewrite app_nil_r].
  set (files := iter_images_of w src names).
  unfold bind at 1.
  pose proof (call_preserves saves (Some progress_cb) 0
                (Z.of_nat (List.length files)) None progress_cb_keeps_saves w)
    as Hc.
  destruct (call_returns (Some progress_cb) 0 (Z.of_nat (List.length files)) None w)
    as [w0 Hcall].
  rewrite Hcall in *. cbn [fst] in Hc.
  unfold bind at 1.
  destruct (for_files_saves lib dst quality (Some progress_cb)
              (Z.of_nat (List.length files)) files [] w0 progress_cb_keeps_saves)
    as (new & Hs & Hg).
  exists new. split; [|exact Hg].
  destruct (for_files lib dst quality (Some progress_cb)
              (Z.of_nat (List.length files)) files [] w0) as [w1 [outs|e]];
    cbn [fst] in *.
  - pose proof (summary_preserves saves files outs (Z.of_nat (List.length files)) w1)
      as Hsum.
    destruct ((src_bytes0 <- sum_getsize files ;;
               dst_bytes0 <- sum_getsize outs ;;
               ret (Z.of_nat (List.length files), src_bytes0, dst_bytes0)) w1)
      as [w2 [[[c sb] db]|e]]; cbn [fst] in *; cbn; now rewrite Hsum, Hs, Hc.
  - cbn. now rewrite Hs, Hc.
Qed.

(** X8.  Through the GUI no file is encoded at a quality outside 1..95:
    every save that the encoder has accepted during a click is one the
    program means to make at the integer typed into the quality entry, and
    that integer lies within 1..95; when the entry is no integer within
    1..95 nothing is encoded, no file changes and the callback is not
    called. *)
Theorem gui_encodes_within_range (src_var dst_var quality_var : string)
    (w : World) :
  exists new,
    saves (fst (run lib src_var dst_var quality_var w)) = (saves w ++ new)%list
    /\ Forall (fun s => exists quality,
                 py_int lib quality_var = Some quality
                 /\ 1 <= quality <= 95
                 /\ good_save quality s) new
    /\ ((forall quality, py_int lib quality_var = Some quality ->
                         quality < 1 \/ 95 < quality) ->
        new = []
        /\ fs (fst (run lib src_var dst_var quality_var w)) = fs w
        /\ calls (fst (run lib src_var dst_var quality_var w)) = calls w).
Proof.
  assert (Hnone : forall d, exists new,
            saves (fst (modify (log_dialog d) w)) = (saves w ++ new)%list
            /\ Forall (fun s => exists quality,
                         py_int lib quality_var = Some quality
                         /\ 1 <= quality <= 95
                         /\ good_save quality s) new
            /\ ((forall quality, py_int lib quality_var = Some quality ->
                                 quality < 1 \/ 95 < quality) ->
                new = []
                /\ fs (fst (modify (log_dialog d) w)) = fs w
                /\ calls (fst (modify (log_dialog d) w)) = calls w)).
  { intros d. exists []. cbn. rewrite app_nil_r. repeat split; constructor. }
  unfold run.
  destruct (_ || _); [apply Hnone|].
  destruct (String.eqb _ _); [apply Hnone|].
  destruct (py_int lib quality_var) as [quality|] eqn:Hq; [|apply Hnone].
  destruct ((quality <? 1) || (95 <? quality)) eqn:Hrange; [apply Hnone|].
  apply orb_false_iff in Hrange. destruct Hrange as [H1 H2].
  apply Z.ltb_ge in H1. apply Z.ltb_ge in H2.
  unfold bind at 1. cbn [modify]. unfold bind at 1. cbn [modify].
  destruct (run_worker_saves (Path.strip src_var) (Path.strip dst_var) quality
              (set_ui_enabled false (set_progress_var 0 w))) as (new & Hs & Hg).
  exists new. split; [exact Hs|]. split.
  - eapply Forall_impl; [exact Hg|]. intros s Hgood. exists quality.
    repeat split; [lia | lia | exact Hgood].
  - intros Hout. destruct (Hout quality eq_refl); lia.
Qed.

End GuiEncoderCalls.

Lemma recording_cb_keeps_saves : keeps_saves (Some recording_cb).
Proof. intros f [= <-] delta total step w. reflexivity. Qed.

(** The batch over [in] makes three encoder calls, all as meant. *)
Lemma batch_encoder_calls_witness :
  exists new,
    saves (fst (compress_dir_with_progress Toy.lib "in" "out" 2 (Some recording_cb)
                  Demo.w_batch))
    = (saves Demo.w_batch ++ new)%list
    /\ Forall (good_save 2) new.
Proof.
  exact (batch_encoder_calls Toy.lib "in" "out" 2 (Some recording_cb) Demo.w_batch
           recording_cb_keeps_saves).
Defined.

Lemma one_encoder_call_per_file_witness :
  Z.of_nat (List.length
              (saves (fst (compress_dir_with_progress Toy.lib "in" "out" 2
                             (Some recording_cb) Demo.w_batch))))
  = Z.of_nat (List.length (saves Demo.w_batch)) + 3.
Proof.
  apply (one_encoder_call_per_file Toy.lib "in" "out" 2 (Some recording_cb)
           Demo.w_batch _ ["a.jpg"; "b.PNG"; "c.png"; "d.txt"; "ghost.png"] 3 10 9).
  - exact recording_cb_keeps_saves.
  - reflexivity.
  - intros name H. cbn in H.
    repeat (destruct H as [<- | H]; [reflexivity|]). destruct H.
  - vm_compute. reflexivity.
Defined.

(** ** The command line, and two sources of one name *)

(** X14.  The command line prints the summary of the batch, once, when the
    batch returns, and prints nothing when the batch raises: the exception
    leaves [run_cli], where the GUI's worker would catch it. *)
Theorem run_cli_prints_summary (lib : Lib) (src dst : string) (quality : Z)
    (w : World) :
  match compress_dir lib src dst quality w with
  | (w1, Returned (count, src_bytes, dst_bytes)) =>
      run_cli lib src dst quality w
      = (log_dialog (Printed count src_bytes dst_bytes) w1, Returned tt)
      /\ dialogs (fst (run_cli lib src dst quality w))
         = (dialogs w ++ [Printed count src_bytes dst_bytes])%list
  | (w1, Raised e) =>
      run_cli lib src dst quality w = (w1, Raised e)
      /\ dialogs (fst (run_cli lib src dst quality w)) = dialogs w
  end.
Proof.
  pose proof (compress_preserves lib dialogs src dst quality None
                (fun _ _ => eq_refl) (fun _ _ _ _ => eq_refl)
                ltac:(intros f H; discriminate) w) as Hd.
  unfold run_cli, bind. fold (compress_dir lib src dst quality) in Hd.
  destruct (compress_dir lib src dst quality w) as [w1 [[[count sb] db]|e]];
    cbn [fst] in Hd.
  - split; [reflexivity|]. cbn. now rewrite Hd.
  - split; [reflexivity | exact Hd].
Qed.

(** X16.  Two sources of one base name: a PNG without transparency takes
    the place [dst_dir/base.jpg] for its artifact, so whatever file was there
    before, such as the output of a source [base.jpg] processed earlier, is
    gone afterwards: the place holds the artifact of the PNG, or nothing when
    the artifact was larger than the PNG and the Guard removed it. *)
Theorem png_takes_the_jpg_name (lib : Lib) (dst_dir : string) (quality : Z)
    (path base ext0 : string) (w : World) (f : File) (img : Image) (b : bytes) :
  Path.splitext (Path.basename path) = (base, ext0) ->
  Path.lower ext0 = ".png" ->
  fs w !! path = Some f ->
  decode lib (content f) = Some img ->
  has_transparency img = Returned false ->
  encode lib (jpeg_ready lib img)
    (JPEG quality true true (dict_get "exif" (info img))
       (dict_get "icc_profile" (info img))) = Some b ->
  Path.join dst_dir (base +:+ ".jpg") <> path ->
  Path.join dst_dir (base +:+ ".jpg") <> Path.join dst_dir (Path.basename path) ->
  fs (fst (process_file lib dst_dir quality path w)) !! Path.join dst_dir (base +:+ ".jpg")
  = if (List.length (content f) <? List.length b)%nat
       && negb (denied w (Path.join dst_dir (base +:+ ".jpg")))
    then None
    else Some {| content := b; mtime := clock w |}.
Proof.
  intros Hsplit Hext Hf Hd Ht He Hne Hren. unfold process_file, bind.
  rewrite (transcode_png_opaque lib dst_dir quality path base ext0 w f img
             Hsplit Hf Hd Hext Ht).
  unfold bind. rewrite (image_save_ok lib _ _ _ b _ He). unfold ret.
  set (out := Path.join dst_dir (base +:+ ".jpg")) in *.
  set (fb := {| content := b; mtime := clock w |}).
  match goal with
  | |- context [guard dst_dir path out ?w0] => set (w1 := w0)
  end.
  assert (Hout1 : fs w1 !! out = Some fb).
  { unfold w1. rewrite fs_log_save, fs_set_fs. apply lookup_insert_eq. }
  assert (Hsrc1 : fs w1 !! path = Some f).
  { unfold w1. rewrite fs_log_save, fs_set_fs, lookup_insert_ne; [exact Hf|].
    exact Hne. }
  destruct (Nat.ltb_spec (List.length (content f)) (List.length b)) as [Hlt|Hle].
  - rewrite (guard_renames dst_dir path out w1 f fb Hsrc1 Hout1 Hlt Hren).
    change (denied w1 out) with (denied w out).
    destruct (denied w out); cbn [andb negb].
    + destruct (String.eqb path _); cbn [fst]; [exact Hout1|].
      rewrite fs_set_fs, lookup_insert_ne by congruence. exact Hout1.
    + destruct (String.eqb path _); cbn [fst].
      * rewrite fs_set_fs. apply lookup_delete_eq.
      * rewrite fs_set_fs, lookup_insert_ne by congruence.
        rewrite fs_set_fs. apply lookup_delete_eq.
  - rewrite (guard_keeps dst_dir path out w1 f fb Hsrc1 Hout1 Hle).
    cbn [andb fst]. exact Hout1.
Qed.

(** After [in/a.jpg], the PNG [in/a.png] puts its own artifact at
    [out/a.jpg]. *)
Lemma png_takes_the_jpg_name_witness :
  fs Collide.w_after_jpg !! "out/a.jpg"
  = Some {| content := [Byte.x01; Byte.x80; Byte.x80]; mtime := 0 |}
  /\ fs (fst (process_file Toy.lib "out" 2 "in/a.png" Collide.w_after_jpg))
       !! "out/a.jpg"
     = Some {| content := [Byte.x01; Byte.x80; Byte.x80]; mtime := 1 |}.
Proof.
  split; [vm_compute; reflexivity|].
  etransitivity.
  - apply (png_takes_the_jpg_name Toy.lib "out" 2 "in/a.png" "a" ".png"
             Collide.w_after_jpg (Demo.file_of Demo.opaque) Demo.opaque_img
             [Byte.x01; Byte.x80; Byte.x80]);
      try (vm_compute; reflexivity); discriminate.
  - vm_compute. reflexivity.
Defined.
